(** * Decay arithmetic of the insulin time-action visualizer

    A shallow embedding of the two scripts of the repository:
    - [calculate.py]: residual medication per query timestamp, by
      per-substance half-life (exponential decay, accumulated in a dict
      of dicts);
    - [bac.py]: blood alcohol content under a constant elimination rate.

    Numbers.  The scripts compute with Python floats (and the ints [0]
    and [5], which the first arithmetic operation promotes).  They are
    idealised here as the real numbers of the Standard Library: rounding,
    overflow and NaN are outside the model.  What Python raises on the
    paths the scripts can take ([ZeroDivisionError] for a division by
    zero, [KeyError] for a subscript on a missing dict key) is kept, as an
    error value.  Two effects of the double format are not: [0.5 ** x]
    underflows to zero for large [x], and raises [OverflowError] from
    [x <= -1024] on, which the loop can reach only through a negative
    half-life in the table.

    Timestamps.  A timezone-aware [datetime] denotes an absolute instant
    with microsecond resolution; its equality, its hash (hence its
    identity as a dict key) and its difference depend on that instant
    only.  A timestamp is the integer number of microseconds since the
    epoch. *)

From Stdlib Require Import Reals Lra.
From stdpp Require Import gmap strings list fin_maps.

#[local] Open Scope R_scope.

(** ** Errors *)

(** The subscript that failed: a query timestamp (outer dict) or a
    substance name (inner dict). *)
Inductive key :=
  | KTime (t : Z)
  | KName (s : string).

Inductive exn :=
  | KeyError (k : key)
  | ZeroDivisionError.

(** ** calculate.py: the decay kernel *)

(** [0.5 ** x] on reals. *)
Definition half_pow (x : R) : R := Rpower (1 / 2) x.

(** [dose * (0.5 ** (hours_elapsed / half_life))]; the division raises
    when [half_life] is zero.  (The power is the real one: the
    [OverflowError] of the double power for an exponent of [-1024] or
    less is not modelled.) *)
Definition remaining_dose (dose hours_elapsed half_life : R) : exn + R :=
  if Req_dec_T half_life 0 then inl ZeroDivisionError
  else inr (dose * half_pow (hours_elapsed / half_life)).

(** ** bac.py: linear elimination *)

(** Python's [max(a, b)] on two arguments keeps the first unless the
    second is strictly greater. *)
Definition py_max (a b : R) : R := if Rlt_dec a b then b else a.

(** Lines 27 and 30 of [bac.py], as a function of the three quantities
    they read:
<<
    bac_reduction = metabolism_rate_per_hour * time_elapsed_hours
    current_bac = max(0, bac - bac_reduction)
>> *)
Definition linear_reduce (current_level rate_per_hour elapsed_hours : R) : R :=
  let bac_reduction := rate_per_hour * elapsed_hours in
  py_max 0 (current_level - bac_reduction).

(** The constants of [bac.py]. *)
Module Bac.
Definition body_weight_kg : R := 265 * (453592 / 1000000).
Definition alcohol_percent : R := 68 / 1000.
Definition standard_drink_alcohol_g : R := 14.
Definition beer_volume_ml : R := 473.
Definition density_of_ethanol : R := 789 / 1000.
Definition total_volume_ml : R := 2 * beer_volume_ml.
Definition total_alcohol_ml : R := total_volume_ml * alcohol_percent.
Definition total_alcohol_g : R := total_alcohol_ml * density_of_ethanol.
Definition body_water_constant : R := 58 / 100.
Definition body_water_kg : R := body_weight_kg * body_water_constant.
Definition bac : R := (total_alcohol_g / (body_water_kg * 1000)) * 100.
Definition metabolism_rate_per_hour : R := 15 / 1000.
Definition time_elapsed_hours : R := 7 - 45 / 10.
Definition current_bac : R :=
  linear_reduce bac metabolism_rate_per_hour time_elapsed_hours.
Definition alcohol_remaining_g : R := current_bac * body_water_kg * 10.
Definition standard_units_of_alcohol : R :=
  alcohol_remaining_g / standard_drink_alcohol_g.
End Bac.

(** ** bac.py: the computation as a function of its readings *)

(** Line 18, [(total_alcohol_g / (body_water_kg * 1000)) * 100]; the
    division raises when the body water is zero. *)
Definition bac_of (total_alcohol_g body_water_kg : R) : exn + R :=
  if Req_dec_T (body_water_kg * 1000) 0 then inl ZeroDivisionError
  else inr ((total_alcohol_g / (body_water_kg * 1000)) * 100).

(** Line 33, [current_bac * body_water_kg * 10]. *)
Definition alcohol_remaining_g_of (current_bac body_water_kg : R) : R :=
  current_bac * body_water_kg * 10.

(** Line 36, [alcohol_remaining_g / standard_drink_alcohol_g]; the
    division raises on a zero standard drink. *)
Definition standard_units_of (alcohol_remaining_g standard_drink_alcohol_g : R)
  : exn + R :=
  if Req_dec_T standard_drink_alcohol_g 0 then inl ZeroDivisionError
  else inr (alcohol_remaining_g / standard_drink_alcohol_g).

(** Lines 18 to 33: from the alcohol consumed to the alcohol remaining. *)
Definition grams_remaining
    (total_alcohol_g body_water_kg rate_per_hour elapsed_hours : R) : exn + R :=
  match bac_of total_alcohol_g body_water_kg with
  | inl e => inl e
  | inr bac =>
      inr (alcohol_remaining_g_of
             (linear_reduce bac rate_per_hour elapsed_hours) body_water_kg)
  end.

(** ** calculate.py: the data *)

(** A medication history entry, the dict [{"time": .., "dose": ..,
    "type": ..}]. *)
Record med := Med { time : Z; dose : R; type : string }.

(** [results]: query timestamp to (substance to accumulated quantity). *)
Abbreviation results := (gmap Z (gmap string R)).

(** [(target_time - med_time).total_seconds() / 3600]: a [timedelta]
    counts whole microseconds, [total_seconds] divides them by [10**6]. *)
Definition hours_elapsed (target_time med_time : Z) : R :=
  IZR (target_time - med_time) / 1000000 / 3600.

(** Truth value of a float: every value but zero. *)
Definition truthy (half_life : R) : bool :=
  if Req_dec_T half_life 0 then false else true.

(** ** calculate.py: a store of results, with exceptions *)

(** The loop mutates the one [results] object and may be cut short by an
    exception; a computation takes the store and gives the store it
    leaves, with either the exception raised or a value. *)
Definition M (A : Type) : Type := results -> results * (exn + A).

Definition ret {A : Type} (a : A) : M A := fun st => (st, inr a).

Definition raise {A : Type} (e : exn) : M A := fun st => (st, inl e).

Definition bind {A B : Type} (c : M A) (k : A -> M B) : M B :=
  fun st =>
    match c st with
    | (st', inr a) => k a st'
    | (st', inl e) => (st', inl e)
    end.

(** [c1 ;; c2]: statement [c1], then statement [c2] unless [c1] raised. *)
Notation "c1 ;; c2" := (bind c1 (fun _ => c2))
  (at level 100, c2 at level 200, right associativity).

(** [for x in l: body(x)] *)
Fixpoint for_each {A : Type} (l : list A) (body : A -> M unit) : M unit :=
  match l with
  | [] => ret tt
  | x :: l' => body x ;; for_each l' body
  end.

(** [results[target_time][med_type] += rhs].  Python loads
    [results[target_time]], then its entry [med_type] (either subscript
    raises [KeyError] on a missing key), only then evaluates the right
    hand side, and stores the sum into the inner dict, which is the
    object the outer dict holds. *)
Definition iadd_entry (target_time : Z) (med_type : string) (rhs : exn + R)
  : M unit :=
  fun st =>
    match st !! target_time with
    | None => raise (KeyError (KTime target_time)) st
    | Some inner =>
        match inner !! med_type with
        | None => raise (KeyError (KName med_type)) st
        | Some old =>
            match rhs with
            | inl e => raise e st
            | inr v =>
                (<[target_time := <[med_type := old + v]> inner]> st, inr tt)
            end
        end
    end.

(** The body of the inner loop (lines 69 to 74), for one medication and
    one target time.  [HALF_LIVES.get] gives [None], which is falsy, for a
    substance that is not in the table. *)
Definition visit (half_lives : gmap string R) (m : med) (target_time : Z)
  : M unit :=
  let med_time := time m in
  let med_type := type m in
  let hours := hours_elapsed target_time med_time in
  if Rlt_dec 0 hours then
    match half_lives !! med_type with
    | Some half_life =>
        if truthy half_life then
          iadd_entry target_time med_type
            (remaining_dose (dose m) hours half_life)
        else ret tt
    | None => ret tt
    end
  else ret tt.

(** Lines 65 to 74: medications outside, target times inside. *)
Definition accumulation_loop (half_lives : gmap string R)
    (medications : list med) (target_times : list Z) : M unit :=
  for_each medications (fun m =>
    for_each target_times (fun target_time => visit half_lives m target_time)).

(** The inner dict literal of line 63, [{s: 0, ...}], for the given
    substance names. *)
Definition zero_entries (substances : list string) : gmap string R :=
  fold_left (fun d s => <[s := 0]> d) substances ∅.

(** Line 63: the comprehension gives every target time a dict of its
    own. *)
Definition init_results (substances : list string) (target_times : list Z)
  : results :=
  fold_left (fun d t => <[t := zero_entries substances]> d) target_times ∅.

(** Lines 63 to 74 as a function of the table, the pre-seeded substance
    names, the medication history and the target times. *)
Definition accumulate (half_lives : gmap string R) (substances : list string)
    (medications : list med) (target_times : list Z) : results * (exn + unit) :=
  accumulation_loop half_lives medications target_times
    (init_results substances target_times).

(** ** calculate.py: the data of the script *)

Definition HALF_LIVES : gmap string R :=
  list_to_map
    [ ("oxycodone", 3.2); ("hydrocodone", 4.0); ("morphine", 2.75);
      ("fentanyl", 3.7); ("codeine", 3.0); ("methadone", 33.5);
      ("buprenorphine", 33.0); ("tramadol", 6.3); ("hydromorphone", 2.5);
      ("oxymorphone", 8.0); ("tapentadol", 4.0);
      ("amphetamine", 11.5); ("methylphenidate", 2.5);
      ("dextroamphetamine", 11.0); ("lisdexamfetamine", 11.5);
      ("modafinil", 13.5); ("cocaine", 1.0); ("caffeine", 4.0);
      ("alprazolam", 13.5); ("lorazepam", 15.0); ("diazepam", 35.0);
      ("clonazepam", 34.0); ("temazepam", 15.0); ("midazolam", 2.0);
      ("chlordiazepoxide", 17.5); ("flurazepam", 2.5); ("triazolam", 3.5) ]%string.

(** Microseconds since the epoch of the New York wall-clock times of the
    script (all five fall in standard time, UTC-5). *)
Definition medications : list med :=
  [ Med 1730727960000000 5 "oxycodone";
    Med 1730820900000000 5 "oxycodone";
    Med 1730932740000000 5 "oxycodone" ].

Definition target_times : list Z :=
  [ 1730948400000000; 1731020400000000 ]%Z.

Definition seeded_substances : list string := [ "oxycodone"; "hydrocodone" ]%string.

Definition script_run : results * (exn + unit) :=
  accumulate HALF_LIVES seeded_substances medications target_times.

(** ** Reading the result *)

(** The accumulated quantity of substance [s] at query time [t]. *)
Definition entry (st : results) (t : Z) (s : string) : option R :=
  match st !! t with
  | Some inner => inner !! s
  | None => None
  end.

Definition Rsum (l : list R) : R := foldr Rplus 0 l.

(** What the augmented assignment adds for medication [m] at query time
    [t], when the visit reaches it: the decayed remainder for a truthy
    half-life, nothing otherwise. *)
Definition decayed_dose (half_lives : gmap string R) (t : Z) (m : med) : R :=
  match half_lives !! type m with
  | Some half_life =>
      if truthy half_life
      then dose m * half_pow (hours_elapsed t (time m) / half_life)
      else 0
  | None => 0
  end.

(** What one medication adds to substance [s] at query time [t], as the
    guards of the loop body decide it. *)
Definition contribution (half_lives : gmap string R) (s : string) (t : Z)
    (m : med) : R :=
  if decide (type m = s) then
    if Rlt_dec 0 (hours_elapsed t (time m)) then decayed_dose half_lives t m
    else 0
  else 0.

(** The key sets of a store: its query timestamps, each with the
    substance names of its inner dict. *)
Definition key_sets (st : results) : gmap Z (gset string) := dom <$> st.

(** [c] at query time [t0], nothing at the others. *)
Definition at_time (t t0 : Z) (c : R) : R := if decide (t = t0) then c else 0.

(** [st'] is [st] with [f t s] added to every entry [(t, s)] it has. *)
Definition adds (st st' : results) (f : Z -> string -> R) : Prop :=
  forall t s, entry st' t s = (fun v => v + f t s) <$> entry st t s.

(** The visit of [m] at [t] passes both guards and reaches the augmented
    assignment. *)
Definition updates (half_lives : gmap string R) (m : med) (t : Z) : Prop :=
  (time m < t)%Z /\
  exists half_life, half_lives !! type m = Some half_life /\ half_life <> 0.

(** Every augmented assignment the loop reaches finds its entry. *)
Definition seeded (half_lives : gmap string R) (st : results)
    (meds : list med) (targets : list Z) : Prop :=
  forall m t, m ∈ meds -> t ∈ targets -> updates half_lives m t ->
    is_Some (entry st t (type m)).

(** No entry of the store is negative. *)
Definition nonneg_entries (st : results) : Prop :=
  forall t s v, entry st t s = Some v -> 0 <= v.

(** ** The decay kernel: basic facts *)

Lemma half_pow_0 : half_pow 0 = 1.
Proof. unfold half_pow. apply Rpower_O. lra. Qed.

Lemma half_pow_pos (x : R) : 0 < half_pow x.
Proof. unfold half_pow, Rpower. apply exp_pos. Qed.

Lemma remaining_dose_ok (dose hours_elapsed half_life : R) :
  half_life <> 0 ->
  remaining_dose dose hours_elapsed half_life
  = inr (dose * half_pow (hours_elapsed / half_life)).
Proof. intros Hh. unfold remaining_dose. destruct (Req_dec_T half_life 0); [lra | reflexivity]. Qed.

Lemma remaining_dose_zero_half_life (dose hours_elapsed : R) :
  remaining_dose dose hours_elapsed 0 = inl ZeroDivisionError.
Proof. unfold remaining_dose. destruct (Req_dec_T 0 0); [reflexivity | lra]. Qed.

Lemma py_max_Rmax (a b : R) : py_max a b = Rmax a b.
Proof.
  unfold py_max, Rmax.
  destruct (Rlt_dec a b), (Rle_dec a b); lra.
Qed.

Lemma linear_reduce_Rmax (current_level rate_per_hour elapsed_hours : R) :
  linear_reduce current_level rate_per_hour elapsed_hours
  = Rmax 0 (current_level - rate_per_hour * elapsed_hours).
Proof. unfold linear_reduce. apply py_max_Rmax. Qed.

(** ** Elapsed hours *)

Lemma hours_elapsed_pos (target_time med_time : Z) :
  0 < hours_elapsed target_time med_time <-> (med_time < target_time)%Z.
Proof.
  unfold hours_elapsed. split.
  - intros H.
    assert (H0 : 0 < IZR (target_time - med_time)).
    { apply Rnot_le_lt. intros Hle.
      assert (IZR (target_time - med_time) / 1000000 / 3600 <= 0); [| lra].
      unfold Rdiv.
      assert (0 < / 1000000) by (apply Rinv_0_lt_compat; lra).
      assert (0 < / 3600) by (apply Rinv_0_lt_compat; lra).
      nra. }
    apply lt_IZR in H0. lia.
  - intros H.
    assert (H0 : 0 < IZR (target_time - med_time)) by (apply IZR_lt; lia).
    unfold Rdiv.
    assert (0 < / 1000000) by (apply Rinv_0_lt_compat; lra).
    assert (0 < / 3600) by (apply Rinv_0_lt_compat; lra).
    apply Rmult_lt_0_compat; [apply Rmult_lt_0_compat |]; assumption.
Qed.

Lemma hours_elapsed_nonpos (target_time med_time : Z) :
  hours_elapsed target_time med_time <= 0 <-> (target_time <= med_time)%Z.
Proof.
  pose proof (hours_elapsed_pos target_time med_time) as [H1 H2].
  split; intros H.
  - destruct (Z_lt_le_dec med_time target_time) as [Hlt | Hle]; [| exact Hle].
    apply H2 in Hlt. lra.
  - apply Rnot_lt_le. intros Hlt. apply H1 in Hlt. lia.
Qed.

Lemma truthy_true (half_life : R) : truthy half_life = true <-> half_life <> 0.
Proof. unfold truthy. destruct (Req_dec_T half_life 0); split; intros; congruence. Qed.

Lemma truthy_false (half_life : R) : truthy half_life = false <-> half_life = 0.
Proof. unfold truthy. destruct (Req_dec_T half_life 0); split; intros; congruence. Qed.

(** ** One visit of the loop body *)

Section Visit.
Variable half_lives : gmap string R.

(** A target time at or before the medication: nothing happens. *)
Lemma visit_not_before (m : med) (t : Z) (st : results) :
  (t <= time m)%Z -> visit half_lives m t st = (st, inr tt).
Proof.
  intros H. unfold visit.
  destruct (Rlt_dec 0 (hours_elapsed t (time m))) as [Hpos | _]; [| reflexivity].
  apply hours_elapsed_pos in Hpos. lia.
Qed.

(** A substance that is not in the table: nothing happens. *)
Lemma visit_unknown (m : med) (t : Z) (st : results) :
  half_lives !! type m = None -> visit half_lives m t st = (st, inr tt).
Proof.
  intros H. unfold visit. rewrite H.
  destruct (Rlt_dec 0 (hours_elapsed t (time m))); reflexivity.
Qed.

(** A recorded half-life of zero is falsy: nothing happens. *)
Lemma visit_zero_half_life (m : med) (t : Z) (st : results) :
  half_lives !! type m = Some 0 -> visit half_lives m t st = (st, inr tt).
Proof.
  intros H. unfold visit. rewrite H.
  assert (Hf : truthy 0 = false) by (apply truthy_false; reflexivity).
  rewrite Hf.
  destruct (Rlt_dec 0 (hours_elapsed t (time m))); reflexivity.
Qed.

(** Past both guards, the visit is the augmented assignment. *)
Lemma visit_iadd (m : med) (t : Z) (half_life : R) (st : results) :
  (time m < t)%Z -> half_lives !! type m = Some half_life -> half_life <> 0 ->
  visit half_lives m t st
  = iadd_entry t (type m)
      (inr (dose m * half_pow (hours_elapsed t (time m) / half_life))) st.
Proof.
  intros Hlt Hhl Hnz. unfold visit. rewrite Hhl.
  destruct (Rlt_dec 0 (hours_elapsed t (time m))) as [_ | Hn].
  - apply truthy_true in Hnz as Htr. rewrite Htr.
    rewrite (remaining_dose_ok _ _ _ Hnz). reflexivity.
  - exfalso. apply Hn. apply hours_elapsed_pos. exact Hlt.
Qed.

Lemma visit_adds (m : med) (t : Z) (half_life old : R)
    (inner : gmap string R) (st : results) :
  (time m < t)%Z -> half_lives !! type m = Some half_life -> half_life <> 0 ->
  st !! t = Some inner -> inner !! type m = Some old ->
  visit half_lives m t st
  = (<[t := <[type m :=
        old + dose m * half_pow (hours_elapsed t (time m) / half_life)]> inner]> st,
     inr tt).
Proof.
  intros Hlt Hhl Hnz Ht Hs.
  rewrite (visit_iadd m t half_life st Hlt Hhl Hnz).
  unfold iadd_entry. rewrite Ht, Hs. reflexivity.
Qed.

Lemma visit_key_error (m : med) (t : Z) (half_life : R)
    (inner : gmap string R) (st : results) :
  (time m < t)%Z -> half_lives !! type m = Some half_life -> half_life <> 0 ->
  st !! t = Some inner -> inner !! type m = None ->
  visit half_lives m t st = (st, inl (KeyError (KName (type m)))).
Proof.
  intros Hlt Hhl Hnz Ht Hs.
  rewrite (visit_iadd m t half_life st Hlt Hhl Hnz).
  unfold iadd_entry. rewrite Ht, Hs. reflexivity.
Qed.

(** Every visit is one of three: a skip, a [KeyError] that leaves the
    store as it was, or one entry replaced. *)
Lemma visit_cases (m : med) (t : Z) (st : results) :
  visit half_lives m t st = (st, inr tt)
  \/ (exists k, visit half_lives m t st = (st, inl (KeyError k)))
  \/ (exists half_life inner old,
        (time m < t)%Z /\ half_lives !! type m = Some half_life /\
        half_life <> 0 /\ st !! t = Some inner /\ inner !! type m = Some old /\
        visit half_lives m t st
        = (<[t := <[type m :=
              old + dose m * half_pow (hours_elapsed t (time m) / half_life)]> inner]> st,
           inr tt)).
Proof.
  destruct (Z_lt_le_dec (time m) t) as [Hlt | Hle].
  2: { left. apply visit_not_before. exact Hle. }
  destruct (half_lives !! type m) as [half_life |] eqn:Hhl.
  2: { left. apply visit_unknown. exact Hhl. }
  destruct (Req_dec_T half_life 0) as [-> | Hnz].
  { left. apply visit_zero_half_life. exact Hhl. }
  destruct (st !! t) as [inner |] eqn:Ht.
  2: { right. left. exists (KTime t).
       rewrite (visit_iadd m t half_life st Hlt Hhl Hnz).
       unfold iadd_entry. rewrite Ht. reflexivity. }
  destruct (inner !! type m) as [old |] eqn:Hs.
  - right. right. exists half_life, inner, old.
    repeat split; try assumption.
    apply visit_adds; assumption.
  - right. left. exists (KName (type m)).
    apply (visit_key_error m t half_life inner); assumption.
Qed.

End Visit.

(** ** Contributions *)

Section Contribution.
Variable half_lives : gmap string R.

Lemma decayed_dose_unknown (t : Z) (m : med) :
  half_lives !! type m = None -> decayed_dose half_lives t m = 0.
Proof. intros H. unfold decayed_dose. rewrite H. reflexivity. Qed.

Lemma decayed_dose_zero_half_life (t : Z) (m : med) :
  half_lives !! type m = Some 0 -> decayed_dose half_lives t m = 0.
Proof.
  intros H. unfold decayed_dose. rewrite H.
  assert (Hf : truthy 0 = false) by (apply truthy_false; reflexivity).
  rewrite Hf. reflexivity.
Qed.

Lemma decayed_dose_known (t : Z) (m : med) (half_life : R) :
  half_lives !! type m = Some half_life -> half_life <> 0 ->
  decayed_dose half_lives t m
  = dose m * half_pow (hours_elapsed t (time m) / half_life).
Proof.
  intros H Hnz. unfold decayed_dose. rewrite H.
  apply truthy_true in Hnz. rewrite Hnz. reflexivity.
Qed.

Lemma decayed_dose_nonneg (t : Z) (m : med) :
  0 <= dose m -> 0 <= decayed_dose half_lives t m.
Proof.
  intros Hd. unfold decayed_dose.
  destruct (half_lives !! type m) as [half_life |]; [| lra].
  destruct (truthy half_life); [| lra].
  apply Rmult_le_pos; [exact Hd |]. left. apply half_pow_pos.
Qed.

Lemma contribution_other (s : string) (t : Z) (m : med) :
  type m <> s -> contribution half_lives s t m = 0.
Proof. intros H. unfold contribution. destruct (decide (type m = s)); [contradiction | reflexivity]. Qed.

Lemma contribution_not_before (s : string) (t : Z) (m : med) :
  (t <= time m)%Z -> contribution half_lives s t m = 0.
Proof.
  intros H. unfold contribution.
  destruct (decide (type m = s)); [| reflexivity].
  destruct (Rlt_dec 0 (hours_elapsed t (time m))) as [Hpos | _]; [| reflexivity].
  apply hours_elapsed_pos in Hpos. lia.
Qed.

Lemma contribution_before (t : Z) (m : med) :
  (time m < t)%Z ->
  contribution half_lives (type m) t m = decayed_dose half_lives t m.
Proof.
  intros Hlt. unfold contribution.
  destruct (decide (type m = type m)); [| contradiction].
  destruct (Rlt_dec 0 (hours_elapsed t (time m))) as [_ | Hn]; [reflexivity |].
  exfalso. apply Hn. apply hours_elapsed_pos. exact Hlt.
Qed.

Lemma contribution_unknown (s : string) (t : Z) (m : med) :
  half_lives !! type m = None -> contribution half_lives s t m = 0.
Proof.
  intros H. unfold contribution. rewrite decayed_dose_unknown by exact H.
  destruct (decide (type m = s)); [| reflexivity].
  destruct (Rlt_dec 0 (hours_elapsed t (time m))); reflexivity.
Qed.

Lemma contribution_zero_half_life (s : string) (t : Z) (m : med) :
  half_lives !! type m = Some 0 -> contribution half_lives s t m = 0.
Proof.
  intros H. unfold contribution. rewrite decayed_dose_zero_half_life by exact H.
  destruct (decide (type m = s)); [| reflexivity].
  destruct (Rlt_dec 0 (hours_elapsed t (time m))); reflexivity.
Qed.

Lemma contribution_decayed (t : Z) (m : med) (half_life : R) :
  (time m < t)%Z -> half_lives !! type m = Some half_life -> half_life <> 0 ->
  contribution half_lives (type m) t m
  = dose m * half_pow (hours_elapsed t (time m) / half_life).
Proof.
  intros Hlt Hhl Hnz. rewrite contribution_before by exact Hlt.
  apply decayed_dose_known; assumption.
Qed.

Lemma contribution_nonneg (s : string) (t : Z) (m : med) :
  0 <= dose m -> 0 <= contribution half_lives s t m.
Proof.
  intros Hd. unfold contribution.
  destruct (decide (type m = s)); [| lra].
  destruct (Rlt_dec 0 (hours_elapsed t (time m))); [| lra].
  apply decayed_dose_nonneg. exact Hd.
Qed.

End Contribution.

(** ** Stores: entries and key sets *)

Lemma fmap_plus_0 (o : option R) : (fun v => v + 0) <$> o = o.
Proof. destruct o as [v |]; simpl; [f_equal; lra | reflexivity]. Qed.

Lemma entry_insert_eq (st : results) (t : Z) (inner : gmap string R) (s : string) :
  entry (<[t := inner]> st) t s = inner !! s.
Proof. unfold entry. rewrite lookup_insert_eq. reflexivity. Qed.

Lemma entry_insert_ne (st : results) (t t' : Z) (inner : gmap string R) (s : string) :
  t <> t' -> entry (<[t := inner]> st) t' s = entry st t' s.
Proof. intros H. unfold entry. rewrite lookup_insert_ne by exact H. reflexivity. Qed.

Lemma entry_Some (st : results) (t : Z) (s : string) (v : R) :
  entry st t s = Some v <->
  exists inner, st !! t = Some inner /\ inner !! s = Some v.
Proof.
  unfold entry. split.
  - destruct (st !! t) as [inner |]; [| discriminate]. intros H. exists inner. auto.
  - intros (inner & -> & H). exact H.
Qed.

Lemma key_sets_lookup (st : results) (t : Z) :
  key_sets st !! t = dom <$> (st !! t).
Proof. unfold key_sets. apply lookup_fmap. Qed.

Lemma key_sets_dom (st : results) : dom (key_sets st) = dom st.
Proof. unfold key_sets. apply dom_fmap_L. Qed.

(** Replacing the value of an entry that is there changes no key set. *)
Lemma key_sets_update (st : results) (t : Z) (inner : gmap string R)
    (s : string) (old v : R) :
  st !! t = Some inner -> inner !! s = Some old ->
  key_sets (<[t := <[s := v]> inner]> st) = key_sets st.
Proof.
  intros Ht Hs. unfold key_sets. rewrite fmap_insert.
  apply insert_id. rewrite lookup_fmap, Ht. simpl. f_equal.
  rewrite dom_insert_L.
  symmetry. apply subseteq_union_1_L, singleton_subseteq_l, elem_of_dom. eauto.
Qed.

(** ** Loops *)

Lemma for_each_cons {A : Type} (x : A) (l : list A) (body : A -> M unit)
    (st : results) :
  for_each (x :: l) body st
  = match body x st with
    | (st', inr _) => for_each l body st'
    | (st', inl e) => (st', inl e)
    end.
Proof. reflexivity. Qed.

(** A property of the store that every iteration keeps holds when the
    loop ends, however it ends. *)
Lemma for_each_preserves {A : Type} (P : results -> Prop) (body : A -> M unit)
    (l : list A) :
  (forall x st, x ∈ l -> P st -> P (body x st).1) ->
  forall st, P st -> P (for_each l body st).1.
Proof.
  induction l as [| x l IH]; intros Hbody st Hst.
  - exact Hst.
  - rewrite for_each_cons.
    assert (Hx : P (body x st).1) by (apply Hbody; [left | exact Hst]).
    destruct (body x st) as [st' [e | []]]; simpl in *.
    + exact Hx.
    + apply IH; [| exact Hx].
      intros y st0 Hy. apply Hbody. right. exact Hy.
Qed.

(** An exception that ends the loop was raised by one of its iterations. *)
Lemma for_each_raises {A : Type} (body : A -> M unit) (l : list A)
    (st : results) (e : exn) :
  (for_each l body st).2 = inl e ->
  exists x st0, x ∈ l /\ (body x st0).2 = inl e.
Proof.
  revert st. induction l as [| x l IH]; intros st H.
  - discriminate.
  - rewrite for_each_cons in H.
    destruct (body x st) as [st' [e' | []]] eqn:Hb.
    + exists x, st. split; [left |]. rewrite Hb. exact H.
    + destruct (IH st' H) as (y & st0 & Hy & Hr).
      exists y, st0. split; [right; exact Hy | exact Hr].
Qed.

Section Loop.
Variable half_lives : gmap string R.

(** *** Key sets *)

Lemma visit_key_sets (m : med) (t : Z) (st : results) :
  key_sets (visit half_lives m t st).1 = key_sets st.
Proof.
  destruct (visit_cases half_lives m t st)
    as [-> | [[k ->] | (h & inner & old & _ & _ & _ & Ht & Hs & ->)]];
    simpl; try reflexivity.
  apply (key_sets_update st t inner (type m) old); assumption.
Qed.

Lemma inner_loop_key_sets (m : med) (targets : list Z) (st : results) :
  key_sets (for_each targets (fun t => visit half_lives m t) st).1 = key_sets st.
Proof.
  apply (for_each_preserves (fun st' => key_sets st' = key_sets st)); [| reflexivity].
  intros t st' _ H. rewrite visit_key_sets. exact H.
Qed.

Lemma accumulation_loop_key_sets (meds : list med) (targets : list Z)
    (st : results) :
  key_sets (accumulation_loop half_lives meds targets st).1 = key_sets st.
Proof.
  unfold accumulation_loop.
  apply (for_each_preserves (fun st' => key_sets st' = key_sets st)); [| reflexivity].
  intros m st' _ H. rewrite inner_loop_key_sets. exact H.
Qed.

(** *** No division by zero *)

Lemma visit_no_zero_division (m : med) (t : Z) (st : results) :
  (visit half_lives m t st).2 <> inl ZeroDivisionError.
Proof.
  destruct (visit_cases half_lives m t st)
    as [-> | [[k ->] | (h & inner & old & _ & _ & _ & _ & _ & ->)]];
    simpl; discriminate.
Qed.

Lemma accumulation_loop_no_zero_division (meds : list med) (targets : list Z)
    (st : results) :
  (accumulation_loop half_lives meds targets st).2 <> inl ZeroDivisionError.
Proof.
  intros H. unfold accumulation_loop in H.
  apply for_each_raises in H as (m & st1 & _ & H).
  apply for_each_raises in H as (t & st2 & _ & H).
  exact (visit_no_zero_division m t st2 H).
Qed.

(** *** What a completed visit adds *)

Lemma adds_is_Some (st st' : results) (f : Z -> string -> R) (t : Z) (s : string) :
  adds st st' f -> is_Some (entry st t s) -> is_Some (entry st' t s).
Proof.
  intros Ha [v Hv]. rewrite (Ha t s), Hv. simpl. eauto.
Qed.

Lemma adds_refl (st : results) : adds st st (fun _ _ => 0).
Proof. intros t s. symmetry. apply fmap_plus_0. Qed.

Lemma adds_trans (st st' st'' : results) (f g : Z -> string -> R) :
  adds st st' f -> adds st' st'' g ->
  adds st st'' (fun t s => f t s + g t s).
Proof.
  intros H1 H2 t s. rewrite (H2 t s), (H1 t s).
  destruct (entry st t s) as [v |]; simpl; [f_equal; lra | reflexivity].
Qed.

Lemma adds_ext (st st' : results) (f g : Z -> string -> R) :
  (forall t s, f t s = g t s) -> adds st st' f -> adds st st' g.
Proof. intros Hfg H t s. rewrite <- Hfg. apply H. Qed.

Lemma adds_skip (st : results) (f : Z -> string -> R) :
  (forall t s, f t s = 0) -> adds st st f.
Proof. intros Hf. apply (adds_ext st st (fun _ _ => 0)); [auto | apply adds_refl]. Qed.

Lemma at_time_0 (t t0 : Z) : at_time t t0 0 = 0.
Proof. unfold at_time. destruct (decide (t = t0)); reflexivity. Qed.

Lemma visit_adds_contribution (m : med) (t0 : Z) (st st' : results) :
  visit half_lives m t0 st = (st', inr tt) ->
  adds st st' (fun t s => at_time t t0 (contribution half_lives s t0 m)).
Proof.
  intros Hv.
  destruct (Z_lt_le_dec (time m) t0) as [Hlt | Hle].
  2: { rewrite visit_not_before in Hv by exact Hle. injection Hv as <-.
       apply adds_skip. intros t s.
       rewrite contribution_not_before by exact Hle. apply at_time_0. }
  destruct (half_lives !! type m) as [half_life |] eqn:Hhl.
  2: { rewrite visit_unknown in Hv by exact Hhl. injection Hv as <-.
       apply adds_skip. intros t s.
       rewrite contribution_unknown by exact Hhl. apply at_time_0. }
  destruct (Req_dec_T half_life 0) as [-> | Hnz].
  { rewrite visit_zero_half_life in Hv by exact Hhl. injection Hv as <-.
    apply adds_skip. intros t s.
    rewrite contribution_zero_half_life by exact Hhl. apply at_time_0. }
  rewrite (visit_iadd half_lives m t0 half_life st Hlt Hhl Hnz) in Hv.
  unfold iadd_entry in Hv.
  destruct (st !! t0) as [inner |] eqn:Ht; [| discriminate].
  destruct (inner !! type m) as [old |] eqn:Hs; [| discriminate].
  injection Hv as <-.
  intros t s. unfold at_time. destruct (decide (t = t0)) as [-> | Hne].
  - rewrite entry_insert_eq. unfold entry. rewrite Ht.
    destruct (decide (type m = s)) as [<- | Hs'].
    + rewrite lookup_insert_eq, Hs. simpl.
      rewrite (contribution_decayed half_lives t0 m half_life Hlt Hhl Hnz).
      reflexivity.
    + rewrite lookup_insert_ne by exact Hs'.
      rewrite contribution_other by exact Hs'. symmetry. apply fmap_plus_0.
  - rewrite entry_insert_ne by congruence. symmetry. apply fmap_plus_0.
Qed.

(** A visit completes when its entry is there, or when it needs none. *)
Lemma visit_completes (m : med) (t : Z) (st : results) :
  (updates half_lives m t -> is_Some (entry st t (type m))) ->
  exists st', visit half_lives m t st = (st', inr tt).
Proof.
  intros Hseed.
  destruct (visit_cases half_lives m t st)
    as [H | [[k H] | (h & inner & old & _ & _ & _ & _ & _ & H)]]; eauto.
  exfalso.
  destruct (Z_lt_le_dec (time m) t) as [Hlt | Hle].
  2: { rewrite visit_not_before in H by exact Hle. discriminate. }
  destruct (half_lives !! type m) as [half_life |] eqn:Hhl.
  2: { rewrite visit_unknown in H by exact Hhl. discriminate. }
  destruct (Req_dec_T half_life 0) as [-> | Hnz].
  { rewrite visit_zero_half_life in H by exact Hhl. discriminate. }
  destruct Hseed as [v Hv]; [split; eauto |].
  apply entry_Some in Hv as (inner & Ht & Hs).
  rewrite (visit_adds half_lives m t half_life v inner st) in H by assumption.
  discriminate.
Qed.

(** *** Sums *)

Lemma Rsum_cons (x : R) (l : list R) : Rsum (x :: l) = x + Rsum l.
Proof. reflexivity. Qed.

Lemma Rsum_zero {A : Type} (f : A -> R) (l : list A) :
  (forall x, x ∈ l -> f x = 0) -> Rsum (f <$> l) = 0.
Proof.
  induction l as [| x l IH]; intros H; [reflexivity |].
  rewrite fmap_cons, Rsum_cons, IH.
  - rewrite H by left. lra.
  - intros y Hy. apply H. right. exact Hy.
Qed.

Lemma Rsum_ext {A : Type} (f g : A -> R) (l : list A) :
  (forall x, x ∈ l -> f x = g x) -> Rsum (f <$> l) = Rsum (g <$> l).
Proof.
  induction l as [| x l IH]; intros H; [reflexivity |].
  rewrite !fmap_cons, !Rsum_cons, IH.
  - rewrite H by left. reflexivity.
  - intros y Hy. apply H. right. exact Hy.
Qed.

Lemma Rsum_nonneg (l : list R) : Forall (fun x => 0 <= x) l -> 0 <= Rsum l.
Proof.
  induction 1 as [| x l Hx _ IH]; [unfold Rsum; simpl; lra |].
  rewrite Rsum_cons. lra.
Qed.

(** Terms that vanish outside a decidable class can be filtered out. *)
Lemma Rsum_filter {A : Type} (P : A -> Prop) `{Hdec : !forall x, Decision (P x)}
    (f : A -> R) (l : list A) :
  (forall x, x ∈ l -> ~ P x -> f x = 0) ->
  Rsum (f <$> l) = Rsum (f <$> filter P l).
Proof.
  induction l as [| x l IH]; intros Hz; [reflexivity |].
  rewrite fmap_cons, Rsum_cons, IH.
  2: { intros y Hy. apply Hz. right. exact Hy. }
  destruct (decide (P x)) as [Hp | Hn].
  - rewrite filter_cons_True by exact Hp. reflexivity.
  - rewrite filter_cons_False by exact Hn. rewrite Hz; [lra | left | exact Hn].
Qed.

(** Over distinct target times, exactly one of them is [t]. *)
Lemma Rsum_at_time (t : Z) (targets : list Z) (c : Z -> R) :
  NoDup targets -> t ∈ targets ->
  Rsum ((fun t0 => at_time t t0 (c t0)) <$> targets) = c t.
Proof.
  induction 1 as [| t0 targets Hnotin _ IH]; intros Hin.
  - inversion Hin.
  - rewrite fmap_cons, Rsum_cons. unfold at_time at 1.
    destruct (decide (t = t0)) as [<- | Hne].
    + rewrite Rsum_zero; [lra |].
      intros t1 H1. unfold at_time.
      destruct (decide (t = t1)) as [<- | _]; [contradiction | reflexivity].
    + rewrite IH; [lra |]. inversion Hin; subst; [contradiction | assumption].
Qed.

(** *** What the completed loops add *)

Lemma inner_loop_adds (m : med) (targets : list Z) (st : results) :
  (forall t, t ∈ targets -> updates half_lives m t ->
             is_Some (entry st t (type m))) ->
  exists st',
    for_each targets (fun t => visit half_lives m t) st = (st', inr tt) /\
    adds st st' (fun t s =>
      Rsum ((fun t0 => at_time t t0 (contribution half_lives s t0 m)) <$> targets)).
Proof.
  revert st. induction targets as [| t0 targets IH]; intros st Hseed.
  - exists st. split; [reflexivity | apply adds_refl].
  - destruct (visit_completes m t0 st) as [st1 Hv].
    { apply Hseed. left. }
    pose proof (visit_adds_contribution m t0 st st1 Hv) as Ha1.
    destruct (IH st1) as (st' & Hloop & Ha2).
    { intros t Ht Hu. eapply adds_is_Some; [exact Ha1 |].
      apply Hseed; [right; exact Ht | exact Hu]. }
    exists st'. split.
    + rewrite for_each_cons, Hv. exact Hloop.
    + apply (adds_ext _ _ _ _ (fun t s => eq_refl) (adds_trans _ _ _ _ _ Ha1 Ha2)).
Qed.

Lemma accumulation_loop_adds (meds : list med) (targets : list Z) (st : results) :
  seeded half_lives st meds targets ->
  exists st',
    accumulation_loop half_lives meds targets st = (st', inr tt) /\
    adds st st' (fun t s =>
      Rsum ((fun m =>
        Rsum ((fun t0 => at_time t t0 (contribution half_lives s t0 m)) <$> targets))
        <$> meds)).
Proof.
  unfold accumulation_loop.
  revert st. induction meds as [| m meds IH]; intros st Hseed.
  - exists st. split; [reflexivity | apply adds_refl].
  - destruct (inner_loop_adds m targets st) as (st1 & Hin & Ha1).
    { intros t Ht Hu. apply Hseed; [left | exact Ht | exact Hu]. }
    destruct (IH st1) as (st' & Hloop & Ha2).
    { intros m' t Hm' Ht Hu. eapply adds_is_Some; [exact Ha1 |].
      apply Hseed; [right; exact Hm' | exact Ht | exact Hu]. }
    exists st'. split.
    + rewrite for_each_cons, Hin. exact Hloop.
    + apply (adds_ext _ _ _ _ (fun t s => eq_refl) (adds_trans _ _ _ _ _ Ha1 Ha2)).
Qed.

End Loop.

(** ** The initial results *)

Lemma zero_entries_lookup (substances : list string) (s : string) :
  zero_entries substances !! s
  = if decide (s ∈ substances) then Some 0 else None.
Proof.
  unfold zero_entries.
  assert (H : forall (d : gmap string R),
            fold_left (fun d s => <[s := 0]> d) substances d !! s
            = if decide (s ∈ substances) then Some 0 else d !! s).
  { induction substances as [| s0 l IH]; intros d; simpl.
    - destruct (decide (s ∈ [])) as [Hin | _]; [inversion Hin | reflexivity].
    - rewrite IH.
      destruct (decide (s ∈ l)) as [Hin | Hnin].
      + rewrite decide_True by (right; exact Hin). reflexivity.
      + destruct (decide (s = s0)) as [-> | Hne].
        * rewrite decide_True by left. apply lookup_insert_eq.
        * rewrite lookup_insert_ne by congruence.
          rewrite decide_False; [reflexivity |].
          intros Hin. inversion Hin; subst; contradiction. }
  rewrite H. destruct (decide (s ∈ substances)); [reflexivity | apply lookup_empty].
Qed.

Lemma init_results_lookup (substances : list string) (targets : list Z) (t : Z) :
  init_results substances targets !! t
  = if decide (t ∈ targets) then Some (zero_entries substances) else None.
Proof.
  unfold init_results.
  assert (H : forall (d : results),
            fold_left (fun d t => <[t := zero_entries substances]> d) targets d !! t
            = if decide (t ∈ targets) then Some (zero_entries substances)
              else d !! t).
  { induction targets as [| t0 l IH]; intros d; simpl.
    - destruct (decide (t ∈ [])) as [Hin | _]; [inversion Hin | reflexivity].
    - rewrite IH.
      destruct (decide (t ∈ l)) as [Hin | Hnin].
      + rewrite decide_True by (right; exact Hin). reflexivity.
      + destruct (decide (t = t0)) as [-> | Hne].
        * rewrite decide_True by left. apply lookup_insert_eq.
        * rewrite lookup_insert_ne by congruence.
          rewrite decide_False; [reflexivity |].
          intros Hin. inversion Hin; subst; contradiction. }
  rewrite H. destruct (decide (t ∈ targets)); [reflexivity | apply lookup_empty].
Qed.

Lemma init_results_entry (substances : list string) (targets : list Z)
    (t : Z) (s : string) :
  entry (init_results substances targets) t s
  = if decide (t ∈ targets /\ s ∈ substances) then Some 0 else None.
Proof.
  unfold entry. rewrite init_results_lookup.
  destruct (decide (t ∈ targets)) as [Ht | Ht].
  - rewrite zero_entries_lookup.
    destruct (decide (s ∈ substances)) as [Hs | Hs].
    + rewrite decide_True by auto. reflexivity.
    + rewrite decide_False by tauto. reflexivity.
  - rewrite decide_False by tauto. reflexivity.
Qed.

Lemma zero_entries_dom (substances : list string) :
  dom (zero_entries substances) = list_to_set substances.
Proof.
  apply set_eq. intros s. rewrite elem_of_dom, zero_entries_lookup, elem_of_list_to_set.
  destruct (decide (s ∈ substances)) as [Hin | Hnin]; split; intros H.
  - exact Hin.
  - eauto.
  - destruct H as [? H]. discriminate.
  - contradiction.
Qed.

Lemma init_results_dom (substances : list string) (targets : list Z) :
  dom (init_results substances targets) = list_to_set targets.
Proof.
  apply set_eq. intros t. rewrite elem_of_dom, init_results_lookup, elem_of_list_to_set.
  destruct (decide (t ∈ targets)) as [Hin | Hnin]; split; intros H.
  - exact Hin.
  - eauto.
  - destruct H as [? H]. discriminate.
  - contradiction.
Qed.

(** ** The accumulation as a whole *)

Section Accumulate.
Variable half_lives : gmap string R.
Variable substances : list string.

(** The loop completes when every medication that passes the guards is of
    a pre-seeded substance; with distinct target times every entry then
    holds the sum of the contributions of the medications. *)
Lemma accumulate_entries (meds : list med) (targets : list Z) :
  NoDup targets ->
  (forall m t, m ∈ meds -> t ∈ targets -> updates half_lives m t ->
               type m ∈ substances) ->
  exists st',
    accumulate half_lives substances meds targets = (st', inr tt) /\
    forall t s, t ∈ targets -> s ∈ substances ->
      entry st' t s = Some (Rsum (contribution half_lives s t <$> meds)).
Proof.
  intros Hnd Hseed. unfold accumulate.
  destruct (accumulation_loop_adds half_lives meds targets
              (init_results substances targets)) as (st' & Hloop & Ha).
  { intros m t Hm Ht Hu. rewrite init_results_entry.
    rewrite decide_True; [eauto |]. split; [exact Ht | eauto]. }
  exists st'. split; [exact Hloop |].
  intros t s Ht Hs. rewrite (Ha t s), init_results_entry.
  rewrite decide_True by auto. simpl. f_equal.
  rewrite Rplus_0_l. apply Rsum_ext. intros m _.
  apply (Rsum_at_time t targets (fun t0 => contribution half_lives s t0 m));
    assumption.
Qed.

End Accumulate.

(** ** Skipped medications *)

(** Iterations that do nothing can be left out of the loop. *)
Lemma for_each_filter {A : Type} (P : A -> Prop)
    `{Hdec : !forall x, Decision (P x)} (body : A -> M unit) (l : list A) :
  (forall x st, x ∈ l -> ~ P x -> body x st = (st, inr tt)) ->
  forall st, for_each l body st = for_each (filter P l) body st.
Proof.
  induction l as [| x l IH]; intros Hskip st; [reflexivity |].
  assert (IH' : forall st', for_each l body st' = for_each (filter P l) body st').
  { apply IH. intros y st' Hy. apply Hskip. right. exact Hy. }
  destruct (decide (P x)) as [Hp | Hn].
  - rewrite filter_cons_True by exact Hp. rewrite !for_each_cons.
    destruct (body x st) as [st' [e | []]]; [reflexivity | apply IH'].
  - rewrite filter_cons_False by exact Hn.
    rewrite for_each_cons, (Hskip x st) by (left || exact Hn). apply IH'.
Qed.

Lemma inner_loop_unknown (half_lives : gmap string R) (m : med)
    (targets : list Z) (st : results) :
  half_lives !! type m = None ->
  for_each targets (fun t => visit half_lives m t) st = (st, inr tt).
Proof.
  intros H. induction targets as [| t targets IH]; [reflexivity |].
  rewrite for_each_cons, visit_unknown by exact H. exact IH.
Qed.

(** ** Entries that are there stay there *)

Lemma key_sets_is_Some (st st' : results) (t : Z) (s : string) :
  key_sets st' = key_sets st ->
  is_Some (entry st t s) -> is_Some (entry st' t s).
Proof.
  intros Hk [v Hv]. apply entry_Some in Hv as (inner & Ht & Hs).
  assert (Hl : key_sets st' !! t = key_sets st !! t) by (rewrite Hk; reflexivity).
  rewrite !key_sets_lookup, Ht in Hl. unfold entry.
  destruct (st' !! t) as [inner' |]; [| discriminate].
  simpl in Hl. injection Hl as Hd.
  apply elem_of_dom. rewrite Hd. apply elem_of_dom. eauto.
Qed.

(** ** Non-negative entries *)

Lemma visit_nonneg (half_lives : gmap string R) (m : med) (t : Z) (st : results) :
  0 <= dose m -> nonneg_entries st ->
  nonneg_entries (visit half_lives m t st).1.
Proof.
  intros Hd Hst.
  destruct (visit half_lives m t st) as [st' [e | []]] eqn:Hv; simpl.
  - destruct (visit_cases half_lives m t st)
      as [H | [[k H] | (h & inner & old & _ & _ & _ & _ & _ & H)]];
      rewrite H in Hv; injection Hv as <-; try exact Hst. discriminate.
  - pose proof (visit_adds_contribution half_lives m t st st' Hv) as Ha.
    intros t' s v Hentry. rewrite (Ha t' s) in Hentry.
    destruct (entry st t' s) as [old |] eqn:Hold; [| discriminate].
    simpl in Hentry. injection Hentry as <-.
    specialize (Hst t' s old Hold).
    assert (0 <= at_time t' t (contribution half_lives s t m)); [| lra].
    unfold at_time. destruct (decide (t' = t)); [| lra].
    apply contribution_nonneg. exact Hd.
Qed.

Lemma accumulation_loop_nonneg (half_lives : gmap string R) (meds : list med)
    (targets : list Z) (st : results) :
  (forall m, m ∈ meds -> 0 <= dose m) -> nonneg_entries st ->
  nonneg_entries (accumulation_loop half_lives meds targets st).1.
Proof.
  intros Hd. unfold accumulation_loop.
  apply (for_each_preserves nonneg_entries). intros m st1 Hm.
  apply (for_each_preserves nonneg_entries). intros t st2 _.
  apply visit_nonneg. apply Hd. exact Hm.
Qed.

Lemma init_results_nonneg (substances : list string) (targets : list Z) :
  nonneg_entries (init_results substances targets).
Proof.
  intros t s v. rewrite init_results_entry.
  destruct (decide (t ∈ targets /\ s ∈ substances)); [| discriminate].
  intros [= <-]. lra.
Qed.

(** ** The result as a sum over the preceding events *)

Section Preceding.
Variable half_lives : gmap string R.
Variable substances : list string.

(** With distinct target times and every updated substance pre-seeded,
    the entry for substance [s] at query time [t] is the sum, over the
    events of substance [s] strictly before [t], of what each adds. *)
Lemma accumulate_preceding (meds : list med) (targets : list Z) :
  NoDup targets ->
  (forall m t, m ∈ meds -> t ∈ targets -> updates half_lives m t ->
               type m ∈ substances) ->
  exists st',
    accumulate half_lives substances meds targets = (st', inr tt) /\
    forall t s, t ∈ targets -> s ∈ substances ->
      entry st' t s
      = Some (Rsum (decayed_dose half_lives t
                      <$> filter (fun m => type m = s /\ (time m < t)%Z) meds)).
Proof.
  intros Hnd Hseed.
  destruct (accumulate_entries half_lives substances meds targets Hnd Hseed)
    as (st' & Hrun & Hentries).
  exists st'. split; [exact Hrun |].
  intros t s Ht Hs. rewrite (Hentries t s Ht Hs). f_equal.
  rewrite (Rsum_filter (fun m => type m = s /\ (time m < t)%Z)).
  - apply Rsum_ext. intros m Hm.
    apply list_elem_of_filter in Hm as [[<- Hlt] _].
    apply contribution_before. exact Hlt.
  - intros m _ Hn.
    destruct (decide (type m = s)) as [Heq | Hne].
    + apply contribution_not_before.
      destruct (Z_lt_le_dec (time m) t); [tauto | assumption].
    + apply contribution_other. exact Hne.
Qed.

End Preceding.

(** ** When the loop completes *)

(** When the loop completes, every iteration completed; what its
    completion tells about the store it ran on is carried back to the
    initial store. *)
Lemma for_each_completes {A : Type} (body : A -> M unit)
    (Q : A -> results -> Prop) (l : list A) :
  (forall x st0 st1, body x st0 = (st1, inr tt) -> Q x st0) ->
  (forall x y st0, Q x (body y st0).1 -> Q x st0) ->
  forall st st', for_each l body st = (st', inr tt) ->
  forall x, x ∈ l -> Q x st.
Proof.
  intros Hrun Hback. induction l as [| y l IH]; intros st st' Hloop x Hx.
  - inversion Hx.
  - rewrite for_each_cons in Hloop.
    destruct (body y st) as [st1 [e | []]] eqn:Hy; [discriminate |].
    apply elem_of_cons in Hx as [-> | Hx].
    + apply (Hrun y st st1). exact Hy.
    + apply (Hback x y st). rewrite Hy. simpl.
      apply (IH st1 st' Hloop x Hx).
Qed.

Section Completes.
Variable half_lives : gmap string R.

Lemma visit_completes_iff (m : med) (t : Z) (st : results) :
  (exists st', visit half_lives m t st = (st', inr tt)) <->
  (updates half_lives m t -> is_Some (entry st t (type m))).
Proof.
  split; [| apply visit_completes].
  intros [st' Hv] [Hlt (h & Hhl & Hnz)].
  rewrite (visit_iadd half_lives m t h st Hlt Hhl Hnz) in Hv.
  unfold iadd_entry in Hv. unfold entry.
  destruct (st !! t) as [inner |]; [| discriminate].
  destruct (inner !! type m); [eauto | discriminate].
Qed.

(** The loop completes exactly when every augmented assignment it
    reaches finds its entry in the initial store. *)
Lemma accumulation_loop_completes_iff (meds : list med) (targets : list Z)
    (st : results) :
  (exists st', accumulation_loop half_lives meds targets st = (st', inr tt)) <->
  seeded half_lives st meds targets.
Proof.
  split.
  2: { intros H.
       destruct (accumulation_loop_adds half_lives meds targets st H)
         as (st' & Hrun & _). eauto. }
  intros [st' Hrun] m t Hm Ht.
  unfold accumulation_loop in Hrun.
  revert t Ht.
  apply (for_each_completes
           (fun m => for_each targets (fun t => visit half_lives m t))
           (fun m st0 => forall t, t ∈ targets -> updates half_lives m t ->
                                   is_Some (entry st0 t (type m)))
           meds) with (st := st) (st' := st'); [| | exact Hrun | exact Hm].
  - intros m0 st0 st1 Hinner t Ht.
    apply (for_each_completes (fun t => visit half_lives m0 t)
             (fun t st2 => updates half_lives m0 t ->
                           is_Some (entry st2 t (type m0)))
             targets) with (st := st0) (st' := st1); [| | exact Hinner | exact Ht].
    + intros t0 st2 st3 Hv. apply visit_completes_iff. eauto.
    + intros t0 t1 st2 H Hu.
      apply (key_sets_is_Some (visit half_lives m0 t1 st2).1 st2);
        [symmetry; apply visit_key_sets | exact (H Hu)].
  - intros m0 m1 st0 H t Ht Hu.
    apply (key_sets_is_Some
             (for_each targets (fun t => visit half_lives m1 t) st0).1 st0);
      [symmetry; apply inner_loop_key_sets | exact (H t Ht Hu)].
Qed.

(** For the script's initial results: the accumulation completes exactly
    when every medication that passes the guards at some target time is of
    a pre-seeded substance. *)
Lemma accumulate_completes_iff (substances : list string) (meds : list med)
    (targets : list Z) :
  (exists st', accumulate half_lives substances meds targets = (st', inr tt)) <->
  (forall m t, m ∈ meds -> t ∈ targets -> updates half_lives m t ->
               type m ∈ substances).
Proof.
  unfold accumulate. rewrite accumulation_loop_completes_iff. unfold seeded.
  split; intros H m t Hm Ht Hu; specialize (H m t Hm Ht Hu).
  - rewrite init_results_entry in H.
    destruct (decide (t ∈ targets /\ type m ∈ substances)) as [[_ Hs] | _];
      [exact Hs | destruct H; discriminate].
  - rewrite init_results_entry, decide_True by auto. eauto.
Qed.

End Completes.

(** ** Target times listed more than once *)

Lemma Rsum_scale {A : Type} (k : R) (f : A -> R) (l : list A) :
  Rsum ((fun x => k * f x) <$> l) = k * Rsum (f <$> l).
Proof.
  induction l as [| x l IH]; [unfold Rsum; simpl; lra |].
  rewrite !fmap_cons, !Rsum_cons, IH. lra.
Qed.

(** A target time is visited once for each time it is listed. *)
Lemma Rsum_at_time_count (t : Z) (targets : list Z) (c : Z -> R) :
  Rsum ((fun t0 => at_time t t0 (c t0)) <$> targets)
  = INR (length (filter (fun t0 => t = t0) targets)) * c t.
Proof.
  induction targets as [| t0 targets IH]; [unfold Rsum; simpl; lra |].
  rewrite fmap_cons, Rsum_cons, IH. unfold at_time.
  destruct (decide (t = t0)) as [<- | Hne].
  - rewrite filter_cons_True by reflexivity.
    change (length (t :: filter (fun t0 => t = t0) targets))
      with (S (length (filter (fun t0 => t = t0) targets))).
    rewrite S_INR. lra.
  - rewrite filter_cons_False by exact Hne. lra.
Qed.

Lemma Rsum_contribution_preceding (half_lives : gmap string R) (s : string)
    (t : Z) (meds : list med) :
  Rsum (contribution half_lives s t <$> meds)
  = Rsum (decayed_dose half_lives t
            <$> filter (fun m => type m = s /\ (time m < t)%Z) meds).
Proof.
  rewrite (Rsum_filter (fun m => type m = s /\ (time m < t)%Z)).
  - apply Rsum_ext. intros m Hm.
    apply list_elem_of_filter in Hm as [[<- Hlt] _].
    apply contribution_before. exact Hlt.
  - intros m _ Hn.
    destruct (decide (type m = s)) as [Heq | Hne].
    + apply contribution_not_before.
      destruct (Z_lt_le_dec (time m) t); [tauto | assumption].
    + apply contribution_other. exact Hne.
Qed.

(** When every medication that passes the guards is of a pre-seeded
    substance the loop completes, and the entry of a substance at a target
    time holds, once for each time the target time is listed, the sum
    over the events of that substance strictly before it. *)
Lemma accumulate_entries_listed (half_lives : gmap string R)
    (substances : list string) (meds : list med) (targets : list Z) :
  (forall m t, m ∈ meds -> t ∈ targets -> updates half_lives m t ->
               type m ∈ substances) ->
  exists st',
    accumulate half_lives substances meds targets = (st', inr tt) /\
    forall t s, t ∈ targets -> s ∈ substances ->
      entry st' t s
      = Some (INR (length (filter (fun t0 => t = t0) targets))
              * Rsum (decayed_dose half_lives t
                        <$> filter (fun m => type m = s /\ (time m < t)%Z) meds)).
Proof.
  intros Hseed. unfold accumulate.
  destruct (accumulation_loop_adds half_lives meds targets
              (init_results substances targets)) as (st' & Hloop & Ha).
  { intros m t Hm Ht Hu. rewrite init_results_entry.
    rewrite decide_True; [eauto |]. split; [exact Ht | eauto]. }
  exists st'. split; [exact Hloop |].
  intros t s Ht Hs. rewrite (Ha t s), init_results_entry.
  rewrite decide_True by auto. simpl. f_equal.
  rewrite Rplus_0_l, <- Rsum_contribution_preceding, <- Rsum_scale.
  apply Rsum_ext. intros m _.
  apply (Rsum_at_time_count t targets (fun t0 => contribution half_lives s t0 m)).
Qed.

(** Every half-life the script's table records is positive. *)
Lemma HALF_LIVES_positive (s : string) (h : R) :
  HALF_LIVES !! s = Some h -> 0 < h.
Proof.
  unfold HALF_LIVES. intros H. apply elem_of_list_to_map_2 in H.
  repeat (apply elem_of_cons in H as [[= _ ->] | H]; [lra |]).
  inversion H.
Qed.

(** ** The scenarios of the specification *)

Lemma half_pow_1 : half_pow 1 = 1 / 2.
Proof. unfold half_pow. apply Rpower_1. lra. Qed.

(** One half-life leaves half of the dose. *)
Lemma remaining_one_half_life (q h : R) :
  h <> 0 -> remaining_dose q h h = inr (q * (1 / 2)).
Proof.
  intros Hh. rewrite remaining_dose_ok by exact Hh.
  unfold Rdiv at 1. rewrite Rinv_r by exact Hh. rewrite half_pow_1. reflexivity.
Qed.

Lemma half_pow_decreasing (x y : R) : x < y -> half_pow y < half_pow x.
Proof.
  intros H. unfold half_pow, Rpower. apply exp_increasing.
  assert (Hln : ln (1 / 2) < 0).
  { rewrite <- ln_1. apply ln_increasing; lra. }
  nra.
Qed.

Lemma hours_elapsed_one_hour : hours_elapsed 90000000000 86400000000 = 1.
Proof.
  unfold hours_elapsed.
  change (90000000000 - 86400000000)%Z with 3600000000%Z. lra.
Qed.

Lemma hours_elapsed_25_hours : hours_elapsed 90000000000 0 = 25.
Proof.
  unfold hours_elapsed.
  change (90000000000 - 0)%Z with 90000000000%Z. lra.
Qed.

(** In the two-dose scenario the sum of the two remainders, each decayed
    from its own time, is less than the two doses added and decayed the
    one hour since the second. *)
Lemma two_doses_not_combined :
  5 * half_pow (hours_elapsed 90000000000 0 / 3.2)
  + (5 * half_pow (hours_elapsed 90000000000 86400000000 / 3.2) + 0)
  < (5 + 5) * half_pow (hours_elapsed 90000000000 86400000000 / 3.2).
Proof.
  rewrite hours_elapsed_one_hour, hours_elapsed_25_hours.
  assert (H : half_pow (25 / 3.2) < half_pow (1 / 3.2))
    by (apply half_pow_decreasing; lra).
  lra.
Qed.

(** A target time listed twice is one key of [results] and is visited
    twice: the dose is added twice to the one entry.  This is why the
    sums above are stated for distinct target times. *)
Lemma repeated_target_time_counts_twice :
  exists st',
    accumulate HALF_LIVES seeded_substances [Med 0 5 "oxycodone"]
      [3600000000%Z; 3600000000%Z]
    = (st', inr tt)
    /\ entry st' 3600000000 "oxycodone"
       = Some (2 * (5 * half_pow (hours_elapsed 3600000000 0 / 3.2))).
Proof.
  unfold accumulate.
  destruct (accumulation_loop_adds HALF_LIVES [Med 0 5 "oxycodone"]
              [3600000000%Z; 3600000000%Z]
              (init_results seeded_substances [3600000000%Z; 3600000000%Z]))
    as (st' & Hrun & Ha).
  - intros m t Hm Ht _. rewrite init_results_entry.
    rewrite decide_True; [eauto |]. split; [exact Ht |].
    apply elem_of_cons in Hm as [-> | Hm]; [left | inversion Hm].
  - exists st'. split; [exact Hrun |].
    rewrite (Ha 3600000000%Z "oxycodone"%string), init_results_entry.
    rewrite decide_True by (split; left).
    assert (Hc : contribution HALF_LIVES "oxycodone" 3600000000
                   (Med 0 5 "oxycodone")
                 = 5 * half_pow (hours_elapsed 3600000000 0 / 3.2)).
    { apply (contribution_decayed HALF_LIVES 3600000000
               (Med 0 5 "oxycodone") 3.2);
        [simpl; lia | reflexivity | apply Rgt_not_eq; lra]. }
    rewrite !fmap_cons, !fmap_nil, !Rsum_cons.
    unfold at_time. rewrite !decide_True by reflexivity. rewrite Hc.
    unfold Rsum. simpl. f_equal. lra.
Qed.

(** ** Substances that are not in the table *)

(** C1, as the code has it: a dose event whose substance is not in the
    half-life table raises nothing and contributes nothing.  Its visits
    leave the store as it is, and the accumulation gives the store and the
    outcome it gives on the event list without such events. *)
Theorem unknown_substance_skipped (half_lives : gmap string R) :
  (forall (m : med) (t : Z) (st : results),
     half_lives !! type m = None -> visit half_lives m t st = (st, inr tt))
  /\ (forall (substances : list string) (meds : list med) (targets : list Z),
        accumulate half_lives substances meds targets
        = accumulate half_lives substances
            (filter (fun m => is_Some (half_lives !! type m)) meds) targets).
Proof.
  split.
  - intros m t st H. apply visit_unknown. exact H.
  - intros substances meds targets. unfold accumulate, accumulation_loop.
    apply for_each_filter. intros m st _ Hn.
    apply inner_loop_unknown.
    destruct (half_lives !! type m) eqn:E; [| reflexivity].
    exfalso. apply Hn. eauto.
Qed.

Lemma unknown_substance_skipped_witness :
  visit HALF_LIVES (Med 0 5 "aspirin") 3600000000 ∅ = (∅, inr tt).
Proof.
  apply (proj1 (unknown_substance_skipped HALF_LIVES)). reflexivity.
Defined.

(** C1, as stated, fails: an event of a substance that is not in the
    table, one hour before the query time, and the accumulation completes
    with the initial results, no error reported. *)
Lemma unknown_substance_no_error :
  HALF_LIVES !! "aspirin"%string = None
  /\ (time (Med 0 5 "aspirin") < 3600000000)%Z
  /\ accumulate HALF_LIVES seeded_substances [Med 0 5 "aspirin"] [3600000000%Z]
     = (init_results seeded_substances [3600000000%Z], inr tt)
  /\ ~ exists e : exn,
         (accumulate HALF_LIVES seeded_substances [Med 0 5 "aspirin"]
            [3600000000%Z]).2 = inl e.
Proof.
  assert (Hrun : accumulate HALF_LIVES seeded_substances [Med 0 5 "aspirin"]
                   [3600000000%Z]
                 = (init_results seeded_substances [3600000000%Z], inr tt)).
  { unfold accumulate, accumulation_loop.
    rewrite for_each_cons, inner_loop_unknown by reflexivity. reflexivity. }
  split; [reflexivity |]. split; [simpl; lia |]. split; [exact Hrun |].
  intros [e He]. rewrite Hrun in He. discriminate.
Qed.

(** ** Substances that are not pre-seeded *)




(** ** Events at or after the query time *)

(** C3, as the code has it: an event at or after a query time contributes
    nothing there.  The elapsed hours are at most zero exactly when the
    event is not before the query time, and the visit of such a pair
    leaves the store as it is.  When the accumulation completes (every
    event that passes the guards is of a pre-seeded substance, no negative
    half-life in the table), the result at a query time is, once for each
    time the query time is listed, the sum over the events strictly before
    it. *)
Theorem events_not_before_contribute_zero (half_lives : gmap string R)
    (substances : list string) (meds : list med) (targets : list Z) :
  (forall s h, half_lives !! s = Some h -> 0 <= h) ->
  (forall m t, m ∈ meds -> t ∈ targets -> updates half_lives m t ->
               type m ∈ substances) ->
  (forall (m : med) (t : Z),
     hours_elapsed t (time m) <= 0 <-> (t <= time m)%Z)
  /\ (forall (m : med) (t : Z) (st : results),
        hours_elapsed t (time m) <= 0 ->
        visit half_lives m t st = (st, inr tt))
  /\ exists st',
       accumulate half_lives substances meds targets = (st', inr tt) /\
       forall t s, t ∈ targets -> s ∈ substances ->
         entry st' t s
         = Some (INR (length (filter (fun t0 => t = t0) targets))
                 * Rsum (decayed_dose half_lives t
                           <$> filter (fun m => type m = s /\ (time m < t)%Z)
                                 meds)).
Proof.
  intros _ Hseed. split; [| split].
  - intros m t. apply hours_elapsed_nonpos.
  - intros m t st H. apply visit_not_before. apply hours_elapsed_nonpos. exact H.
  - apply accumulate_entries_listed. exact Hseed.
Qed.

Lemma events_not_before_contribute_zero_witness :
  exists st',
    accumulate HALF_LIVES seeded_substances
      [Med 0 5 "oxycodone"; Med 3600000000 5 "oxycodone"] [3600000000%Z]
    = (st', inr tt)
    /\ entry st' 3600000000 "oxycodone"
       = Some (INR 1 * Rsum (decayed_dose HALF_LIVES 3600000000
                               <$> [Med 0 5 "oxycodone"])).
Proof.
  destruct (events_not_before_contribute_zero HALF_LIVES seeded_substances
              [Med 0 5 "oxycodone"; Med 3600000000 5 "oxycodone"]
              [3600000000%Z])
    as (_ & _ & st' & Hrun & Hentries).
  - intros s h H. left. exact (HALF_LIVES_positive s h H).
  - intros m t Hm _ _.
    repeat (apply elem_of_cons in Hm as [-> | Hm]; [left |]).
    inversion Hm.
  - exists st'. split; [exact Hrun |].
    apply (Hentries 3600000000%Z "oxycodone"%string); left.
Defined.

(** C3, as stated, fails: with the query time listed twice the
    accumulation completes and the result at that query time is twice the
    sum over the events strictly before it, not the sum; and a pair with
    positive elapsed hours is skipped all the same when its substance is
    not in the table. *)
Lemma repeated_query_time_doubles :
  (exists st' v,
     accumulate HALF_LIVES seeded_substances [Med 0 5 "oxycodone"]
       [3600000000%Z; 3600000000%Z]
     = (st', inr tt)
     /\ entry st' 3600000000 "oxycodone" = Some v
     /\ v = 2 * Rsum (decayed_dose HALF_LIVES 3600000000
                        <$> filter (fun m => type m = "oxycodone"%string
                                             /\ (time m < 3600000000)%Z)
                              [Med 0 5 "oxycodone"])
     /\ v <> Rsum (decayed_dose HALF_LIVES 3600000000
                     <$> filter (fun m => type m = "oxycodone"%string
                                          /\ (time m < 3600000000)%Z)
                           [Med 0 5 "oxycodone"]))
  /\ (0 < hours_elapsed 3600000000 (time (Med 0 5 "aspirin"))
      /\ forall st : results,
           visit HALF_LIVES (Med 0 5 "aspirin") 3600000000 st = (st, inr tt)).
Proof.
  split.
  - destruct (accumulate_entries_listed HALF_LIVES seeded_substances
                [Med 0 5 "oxycodone"] [3600000000%Z; 3600000000%Z])
      as (st' & Hrun & Hentries).
    { intros m t Hm _ _.
      apply elem_of_cons in Hm as [-> | Hm]; [left | inversion Hm]. }
    exists st'. eexists. split; [exact Hrun |].
    split; [apply (Hentries 3600000000%Z "oxycodone"%string); left |].
    change (filter (fun m => type m = "oxycodone"%string
                             /\ (time m < 3600000000)%Z)
              [Med 0 5 "oxycodone"])
      with [Med 0 5 "oxycodone"].
    change (length (filter (fun t0 => 3600000000%Z = t0)
                      [3600000000%Z; 3600000000%Z])) with 2%nat.
    rewrite fmap_cons, fmap_nil, Rsum_cons.
    rewrite (decayed_dose_known HALF_LIVES 3600000000 (Med 0 5 "oxycodone") 3.2)
      by (reflexivity || (apply Rgt_not_eq; lra)).
    pose proof (half_pow_pos (hours_elapsed 3600000000
                                (time (Med 0 5 "oxycodone")) / 3.2)) as Hpos.
    unfold Rsum. simpl. simpl in Hpos. split; [ring | intros Heq; nra].
  - split.
    + apply hours_elapsed_pos. simpl. lia.
    + intros st. apply visit_unknown. reflexivity.
Qed.

(** ** Several doses of one substance *)

(** C4, as the code has it: several events of one substance add up event
    by event.  When the accumulation completes (every event that passes
    the guards is of a pre-seeded substance, no negative half-life in the
    table), the entry of a substance [s] with non-zero half-life [h] at a
    query time [t] is, once for each time [t] is listed, the sum over the
    events of [s] strictly before [t] of
    [remaining_dose (dose m) (hours_elapsed t (time m)) h], each decayed
    from its own time.  It is not the doses added and decayed once: for
    two doses of 5 a day apart read one hour after the second, the entry
    is less than the ten decayed for that hour. *)
Theorem same_substance_doses_sum_independently :
  (forall (half_lives : gmap string R) (substances : list string)
          (meds : list med) (targets : list Z) (t : Z) (s : string) (h : R),
     (forall s h, half_lives !! s = Some h -> 0 <= h) ->
     (forall m t, m ∈ meds -> t ∈ targets -> updates half_lives m t ->
                  type m ∈ substances) ->
     t ∈ targets -> s ∈ substances ->
     half_lives !! s = Some h -> h <> 0 ->
     (forall m : med, (time m < t)%Z ->
        remaining_dose (dose m) (hours_elapsed t (time m)) h
        = inr (dose m * half_pow (hours_elapsed t (time m) / h)))
     /\ exists st',
          accumulate half_lives substances meds targets = (st', inr tt) /\
          entry st' t s
          = Some (INR (length (filter (fun t0 => t = t0) targets))
                  * Rsum ((fun m => dose m
                                    * half_pow (hours_elapsed t (time m) / h))
                            <$> filter (fun m => type m = s /\ (time m < t)%Z)
                                  meds)))
  /\ (exists st' v,
        accumulate HALF_LIVES seeded_substances
          [Med 0 5 "oxycodone"; Med 86400000000 5 "oxycodone"] [90000000000%Z]
        = (st', inr tt)
        /\ entry st' 90000000000 "oxycodone" = Some v
        /\ v = 5 * half_pow (hours_elapsed 90000000000 0 / 3.2)
               + 5 * half_pow (hours_elapsed 90000000000 86400000000 / 3.2)
        /\ v < (5 + 5)
               * half_pow (hours_elapsed 90000000000 86400000000 / 3.2)).
Proof.
  assert (Hgen :
    forall (half_lives : gmap string R) (substances : list string)
           (meds : list med) (targets : list Z) (t : Z) (s : string) (h : R),
      (forall m t, m ∈ meds -> t ∈ targets -> updates half_lives m t ->
                   type m ∈ substances) ->
      t ∈ targets -> s ∈ substances ->
      half_lives !! s = Some h -> h <> 0 ->
      exists st',
        accumulate half_lives substances meds targets = (st', inr tt) /\
        entry st' t s
        = Some (INR (length (filter (fun t0 => t = t0) targets))
                * Rsum ((fun m => dose m
                                  * half_pow (hours_elapsed t (time m) / h))
                          <$> filter (fun m => type m = s /\ (time m < t)%Z)
                                meds))).
  { intros half_lives substances meds targets t s h Hseed Ht Hs Hhl Hnz.
    destruct (accumulate_entries_listed half_lives substances meds targets Hseed)
      as (st' & Hrun & Hentries).
    exists st'. split; [exact Hrun |].
    rewrite (Hentries t s Ht Hs). f_equal. f_equal.
    apply Rsum_ext. intros m Hm.
    apply list_elem_of_filter in Hm as [[<- _] _].
    apply decayed_dose_known; assumption. }
  split.
  - intros half_lives substances meds targets t s h _ Hseed Ht Hs Hhl Hnz. split.
    + intros m _. apply remaining_dose_ok. exact Hnz.
    + apply Hgen; assumption.
  - destruct (Hgen HALF_LIVES seeded_substances
                [Med 0 5 "oxycodone"; Med 86400000000 5 "oxycodone"]
                [90000000000%Z] 90000000000%Z "oxycodone"%string 3.2)
      as (st' & Hrun & Hentry).
    + intros m t Hm _ _.
      repeat (apply elem_of_cons in Hm as [-> | Hm]; [left |]).
      inversion Hm.
    + left.
    + left.
    + reflexivity.
    + apply Rgt_not_eq. lra.
    + exists st'. eexists. split; [exact Hrun |]. split; [exact Hentry |].
      change (filter (fun m => type m = "oxycodone"%string
                               /\ (time m < 90000000000)%Z)
                [Med 0 5 "oxycodone"; Med 86400000000 5 "oxycodone"])
        with [Med 0 5 "oxycodone"; Med 86400000000 5 "oxycodone"].
      change (length (filter (fun t0 => 90000000000%Z = t0) [90000000000%Z]))
        with 1%nat.
      rewrite !fmap_cons, fmap_nil, !Rsum_cons.
      pose proof two_doses_not_combined as Hlt.
      unfold Rsum. simpl. simpl in Hlt. split; lra.
Qed.

(** The scenario of two doses of 5 a day apart, read one hour after the
    second. *)
Lemma same_substance_doses_sum_independently_witness :
  exists st',
    accumulate HALF_LIVES seeded_substances
      [Med 0 5 "oxycodone"; Med 86400000000 5 "oxycodone"] [90000000000%Z]
    = (st', inr tt)
    /\ entry st' 90000000000 "oxycodone"
       = Some (INR 1
               * (5 * half_pow (hours_elapsed 90000000000 0 / 3.2)
                  + (5 * half_pow (hours_elapsed 90000000000 86400000000 / 3.2)
                     + 0))).
Proof.
  destruct (proj1 same_substance_doses_sum_independently
              HALF_LIVES seeded_substances
              [Med 0 5 "oxycodone"; Med 86400000000 5 "oxycodone"]
              [90000000000%Z] 90000000000%Z "oxycodone"%string 3.2)
    as (_ & st' & Hrun & Hentry).
  - intros s h H. left. exact (HALF_LIVES_positive s h H).
  - intros m t Hm _ _.
    repeat (apply elem_of_cons in Hm as [-> | Hm]; [left |]).
    inversion Hm.
  - left.
  - left.
  - reflexivity.
  - apply Rgt_not_eq. lra.
  - exists st'. split; [exact Hrun | exact Hentry].
Defined.

(** C4, as stated, fails: two doses of one substance and the query time
    listed twice; the accumulation completes and the accumulated value is
    twice the sum of the two independently decayed remainders, not the
    sum. *)
Lemma repeated_query_time_doubles_two_doses :
  exists st' v,
    accumulate HALF_LIVES seeded_substances
      [Med 0 5 "oxycodone"; Med 86400000000 5 "oxycodone"]
      [90000000000%Z; 90000000000%Z]
    = (st', inr tt)
    /\ entry st' 90000000000 "oxycodone" = Some v
    /\ v = 2 * (5 * half_pow (hours_elapsed 90000000000 0 / 3.2)
                + 5 * half_pow (hours_elapsed 90000000000 86400000000 / 3.2))
    /\ v <> 5 * half_pow (hours_elapsed 90000000000 0 / 3.2)
            + 5 * half_pow (hours_elapsed 90000000000 86400000000 / 3.2).
Proof.
  destruct (accumulate_entries_listed HALF_LIVES seeded_substances
              [Med 0 5 "oxycodone"; Med 86400000000 5 "oxycodone"]
              [90000000000%Z; 90000000000%Z])
    as (st' & Hrun & Hentries).
  { intros m t Hm _ _.
    repeat (apply elem_of_cons in Hm as [-> | Hm]; [left |]).
    inversion Hm. }
  exists st'. eexists. split; [exact Hrun |].
  split; [apply (Hentries 90000000000%Z "oxycodone"%string); left |].
  change (filter (fun m => type m = "oxycodone"%string
                           /\ (time m < 90000000000)%Z)
            [Med 0 5 "oxycodone"; Med 86400000000 5 "oxycodone"])
    with [Med 0 5 "oxycodone"; Med 86400000000 5 "oxycodone"].
  change (length (filter (fun t0 => 90000000000%Z = t0)
                    [90000000000%Z; 90000000000%Z])) with 2%nat.
  rewrite !fmap_cons, fmap_nil, !Rsum_cons.
  rewrite (decayed_dose_known HALF_LIVES 90000000000 (Med 0 5 "oxycodone") 3.2)
    by (reflexivity || (apply Rgt_not_eq; lra)).
  rewrite (decayed_dose_known HALF_LIVES 90000000000
             (Med 86400000000 5 "oxycodone") 3.2)
    by (reflexivity || (apply Rgt_not_eq; lra)).
  pose proof (half_pow_pos (hours_elapsed 90000000000 0 / 3.2)) as H1.
  pose proof (half_pow_pos (hours_elapsed 90000000000 86400000000 / 3.2)) as H2.
  unfold Rsum. simpl. simpl in H1, H2. split; [lra | nra].
Qed.

(** ** No events *)

(** C5: with no events the accumulation returns the initial results: for
    each query time, every pre-seeded substance is present with value
    zero. *)
Theorem no_events_all_zero (half_lives : gmap string R)
    (substances : list string) (targets : list Z) (t : Z) (s : string) :
  t ∈ targets -> s ∈ substances ->
  accumulate half_lives substances [] targets
  = (init_results substances targets, inr tt)
  /\ entry (accumulate half_lives substances [] targets).1 t s = Some 0.
Proof.
  intros Ht Hs. split; [reflexivity |].
  unfold accumulate, accumulation_loop. simpl.
  rewrite init_results_entry, decide_True by auto. reflexivity.
Qed.

Lemma no_events_all_zero_witness :
  accumulate HALF_LIVES seeded_substances [] target_times
  = (init_results seeded_substances target_times, inr tt)
  /\ entry (accumulate HALF_LIVES seeded_substances [] target_times).1
       1731020400000000 "hydrocodone" = Some 0.
Proof.
  apply (no_events_all_zero HALF_LIVES seeded_substances target_times
           1731020400000000 "hydrocodone").
  - unfold target_times. right. left.
  - unfold seeded_substances. right. left.
Defined.

(** ** The decay kernel *)

(** C8: for a quantity [q >= 0] and a half-life [h > 0],
    [remaining_dose q 0 h] is [q]: no elapsed time, no decay. *)
Theorem remaining_zero_elapsed (q h : R) :
  0 <= q -> 0 < h -> remaining_dose q 0 h = inr q.
Proof.
  intros _ Hh. rewrite remaining_dose_ok by lra.
  f_equal. unfold Rdiv. rewrite Rmult_0_l, half_pow_0. lra.
Qed.

Lemma remaining_zero_elapsed_witness : remaining_dose 5 0 3.2 = inr 5.
Proof. apply (remaining_zero_elapsed 5 3.2); lra. Defined.

(** C6: for [q >= 0], [h > 0] and [t >= 0], [remaining_dose q t h] returns
    a value that is not negative; and when no dose is negative, every entry
    of the result map is non-negative when the loop ends: the entries for
    the target times and pre-seeded substances are there, and no entry
    anywhere in the store is negative. *)
Theorem remaining_never_negative :
  (forall q t h : R, 0 <= q -> 0 < h -> 0 <= t ->
     exists r, remaining_dose q t h = inr r /\ 0 <= r)
  /\ (forall (half_lives : gmap string R) (substances : list string)
        (meds : list med) (targets : list Z),
        (forall m, m ∈ meds -> 0 <= dose m) ->
        (forall t s, t ∈ targets -> s ∈ substances ->
           exists v,
             entry (accumulate half_lives substances meds targets).1 t s = Some v
             /\ 0 <= v)
        /\ nonneg_entries (accumulate half_lives substances meds targets).1).
Proof.
  split.
  - intros q t h Hq Hh _. eexists. split; [apply remaining_dose_ok; lra |].
    apply Rmult_le_pos; [exact Hq |]. left. apply half_pow_pos.
  - intros half_lives substances meds targets Hd.
    assert (Hnn : nonneg_entries (accumulate half_lives substances meds targets).1).
    { unfold accumulate. apply accumulation_loop_nonneg; [exact Hd |].
      apply init_results_nonneg. }
    split; [| exact Hnn].
    intros t s Ht Hs.
    destruct (key_sets_is_Some (init_results substances targets)
                (accumulate half_lives substances meds targets).1 t s) as [v Hv].
    + unfold accumulate. apply accumulation_loop_key_sets.
    + rewrite init_results_entry, decide_True by auto. eauto.
    + exists v. split; [exact Hv | exact (Hnn t s v Hv)].
Qed.

Lemma remaining_never_negative_witness :
  (exists r, remaining_dose 5 (32 / 10) 3.2 = inr r /\ 0 <= r)
  /\ nonneg_entries (accumulate HALF_LIVES seeded_substances medications target_times).1.
Proof.
  split.
  - apply (proj1 remaining_never_negative 5 (32 / 10) 3.2); lra.
  - apply (proj2 remaining_never_negative HALF_LIVES seeded_substances
             medications target_times).
    intros m Hm. unfold medications in Hm.
    repeat (apply elem_of_cons in Hm as [-> | Hm]; [simpl; lra |]).
    inversion Hm.
Defined.

(** ** The clamped linear model *)

(** C7: [linear_reduce current_level rate_per_hour elapsed_hours] is exactly
    [max(0, current_level - rate_per_hour * elapsed_hours)], so it is never
    negative, however large the product [rate_per_hour * elapsed_hours]. *)
Theorem linear_reduce_clamped (current_level rate_per_hour elapsed_hours : R) :
  linear_reduce current_level rate_per_hour elapsed_hours
  = Rmax 0 (current_level - rate_per_hour * elapsed_hours)
  /\ 0 <= linear_reduce current_level rate_per_hour elapsed_hours.
Proof.
  split; [apply linear_reduce_Rmax |].
  rewrite linear_reduce_Rmax. apply Rmax_l.
Qed.

(** The script's own reading is an instance. *)
Lemma current_bac_nonneg : 0 <= Bac.current_bac.
Proof.
  unfold Bac.current_bac. rewrite linear_reduce_Rmax. apply Rmax_l.
Qed.

(** ** Safety of the loop *)

(** C9: the accumulation never divides by zero.  Whatever the table
    records, and from any store, the loop does not end in
    [ZeroDivisionError]: a substance that is not in the table, or whose
    recorded half-life is zero, is skipped before [remaining_dose], the
    only division by a half-life (which does raise on a zero half-life),
    is reached. *)
Theorem no_division_by_zero (half_lives : gmap string R) :
  (forall (substances : list string) (meds : list med) (targets : list Z),
     (accumulate half_lives substances meds targets).2 <> inl ZeroDivisionError)
  /\ (forall (meds : list med) (targets : list Z) (st : results),
        (accumulation_loop half_lives meds targets st).2 <> inl ZeroDivisionError)
  /\ (forall (m : med) (t : Z) (st : results),
        half_lives !! type m = None \/ half_lives !! type m = Some 0 ->
        visit half_lives m t st = (st, inr tt))
  /\ (forall dose hours : R, remaining_dose dose hours 0 = inl ZeroDivisionError).
Proof.
  split; [| split; [| split]].
  - intros substances meds targets. unfold accumulate.
    apply accumulation_loop_no_zero_division.
  - intros meds targets st. apply accumulation_loop_no_zero_division.
  - intros m t st [H | H].
    + apply visit_unknown. exact H.
    + apply visit_zero_half_life. exact H.
  - apply remaining_dose_zero_half_life.
Qed.

Lemma no_division_by_zero_witness :
  visit {[ "placebo"%string := 0 ]} (Med 0 5 "placebo") 3600000000 ∅
  = (∅, inr tt).
Proof.
  apply (proj1 (proj2 (proj2 (no_division_by_zero {[ "placebo"%string := 0 ]})))).
  right. simpl. apply lookup_singleton_eq.
Defined.

(** ** The frame of the loop *)

(** C10: the loop neither adds nor removes keys.  From any store, and
    however the loop ends, the store it leaves has the query timestamps of
    the store it started from, and under each the same substance names;
    for the script's initial results these are the target times and, under
    each, the pre-seeded substances. *)
Theorem loop_keeps_key_sets (half_lives : gmap string R) (meds : list med)
    (targets : list Z) :
  (forall st : results,
     let st' := (accumulation_loop half_lives meds targets st).1 in
     dom st' = dom st
     /\ forall t, dom <$> (st' !! t) = dom <$> (st !! t))
  /\ (forall substances : list string,
        let st' := (accumulate half_lives substances meds targets).1 in
        dom st' = list_to_set targets
        /\ forall t inner, st' !! t = Some inner ->
             dom inner = list_to_set substances).
Proof.
  split.
  - intros st st'.
    pose proof (accumulation_loop_key_sets half_lives meds targets st) as Hk.
    fold st' in Hk. split.
    + rewrite <- (key_sets_dom st'), Hk. apply key_sets_dom.
    + intros t. rewrite <- !key_sets_lookup, Hk. reflexivity.
  - intros substances st'.
    pose proof (accumulation_loop_key_sets half_lives meds targets
                  (init_results substances targets)) as Hk.
    change (key_sets st' = key_sets (init_results substances targets)) in Hk.
    split.
    + rewrite <- (key_sets_dom st'), Hk, key_sets_dom. apply init_results_dom.
    + intros t inner Ht.
      assert (Hl : key_sets st' !! t
                   = key_sets (init_results substances targets) !! t)
        by (rewrite Hk; reflexivity).
      rewrite !key_sets_lookup, Ht, init_results_lookup in Hl.
      destruct (decide (t ∈ targets)); [| discriminate].
      simpl in Hl. injection Hl as ->. apply zero_entries_dom.
Qed.

Lemma loop_keeps_key_sets_witness :
  dom script_run.1 = list_to_set target_times
  /\ dom (zero_entries seeded_substances) = list_to_set seeded_substances.
Proof.
  split.
  - exact (proj1 (proj2 (loop_keeps_key_sets HALF_LIVES medications target_times)
                   seeded_substances)).
  - apply (proj2 (proj2 (loop_keeps_key_sets HALF_LIVES [] [0%Z])
                    seeded_substances) 0%Z).
    reflexivity.
Defined.

(** ** The script as it stands *)

(** The script as it stands completes, and reads the three oxycodone
    doses at both target times. *)
Lemma script_run_completes :
  exists st',
    script_run = (st', inr tt)
    /\ forall t, t ∈ target_times ->
         entry st' t "oxycodone"
         = Some (Rsum ((fun m => dose m * half_pow (hours_elapsed t (time m) / 3.2))
                         <$> medications))
         /\ entry st' t "hydrocodone" = Some 0.
Proof.
  unfold script_run.
  destruct (accumulate_preceding HALF_LIVES seeded_substances medications
              target_times) as (st' & Hrun & Hentries).
  - unfold target_times. apply NoDup_cons. split.
    + intros H. apply list_elem_of_singleton in H. discriminate.
    + apply NoDup_singleton.
  - intros m t Hm _ _. unfold medications in Hm.
    repeat (apply elem_of_cons in Hm as [-> | Hm]; [left |]).
    inversion Hm.
  - exists st'. split; [exact Hrun |].
    intros t Ht. split.
    + rewrite (Hentries t "oxycodone"%string Ht) by left.
      f_equal. unfold target_times in Ht.
      apply elem_of_cons in Ht as [-> | Ht];
        [| apply list_elem_of_singleton in Ht as ->].
      * change (Rsum (decayed_dose HALF_LIVES 1730948400000000 <$> medications)
                = Rsum ((fun m => dose m * half_pow
                           (hours_elapsed 1730948400000000 (time m) / 3.2))
                          <$> medications)).
        apply Rsum_ext. intros m Hm.
        apply decayed_dose_known; [| apply Rgt_not_eq; lra].
        unfold medications in Hm.
        repeat (apply elem_of_cons in Hm as [-> | Hm]; [reflexivity |]).
        inversion Hm.
      * change (Rsum (decayed_dose HALF_LIVES 1731020400000000 <$> medications)
                = Rsum ((fun m => dose m * half_pow
                           (hours_elapsed 1731020400000000 (time m) / 3.2))
                          <$> medications)).
        apply Rsum_ext. intros m Hm.
        apply decayed_dose_known; [| apply Rgt_not_eq; lra].
        unfold medications in Hm.
        repeat (apply elem_of_cons in Hm as [-> | Hm]; [reflexivity |]).
        inversion Hm.
    + rewrite (Hentries t "hydrocodone"%string Ht) by (right; left).
      reflexivity.
Qed.

(** * Further properties of the scripts *)

(** ** The decay kernel over time *)

Lemma half_pow_plus (x y : R) : half_pow (x + y) = half_pow x * half_pow y.
Proof. unfold half_pow. apply Rpower_plus. Qed.

Lemma half_pow_le_1 (x : R) : 0 <= x -> half_pow x <= 1.
Proof.
  intros [Hx | <-].
  - rewrite <- half_pow_0. left. apply half_pow_decreasing. exact Hx.
  - rewrite half_pow_0. lra.
Qed.

Lemma hours_elapsed_plus (t0 t1 t2 : Z) :
  hours_elapsed t2 t0 = hours_elapsed t1 t0 + hours_elapsed t2 t1.
Proof.
  unfold hours_elapsed.
  replace (t2 - t0)%Z with ((t1 - t0) + (t2 - t1))%Z by lia.
  rewrite plus_IZR. lra.
Qed.



Lemma half_pow_antitone (x y : R) : x <= y -> half_pow y <= half_pow x.
Proof.
  intros [H | <-]; [left; apply half_pow_decreasing; exact H | lra].
Qed.

(** X2: for a non-negative dose and a positive half-life the remainder
    never grows with the elapsed time: at a later time it is at most what
    it was at an earlier one, and from no elapsed time on it is between
    zero and the dose. *)
Theorem remaining_never_grows (q h t1 t2 : R) :
  0 <= q -> 0 < h -> 0 <= t1 -> t1 <= t2 ->
  exists r1 r2,
    remaining_dose q t1 h = inr r1 /\ remaining_dose q t2 h = inr r2
    /\ 0 <= r2 /\ r2 <= r1 /\ r1 <= q.
Proof.
  intros Hq Hh Ht1 Hle.
  assert (Hnz : h <> 0) by (apply Rgt_not_eq; lra).
  assert (Hinv : 0 < / h) by (apply Rinv_0_lt_compat; exact Hh).
  do 2 eexists.
  split; [apply remaining_dose_ok; exact Hnz |].
  split; [apply remaining_dose_ok; exact Hnz |].
  assert (H12 : half_pow (t2 / h) <= half_pow (t1 / h)).
  { apply half_pow_antitone. unfold Rdiv. nra. }
  assert (H1 : half_pow (t1 / h) <= 1).
  { apply half_pow_le_1. unfold Rdiv. nra. }
  pose proof (half_pow_pos (t2 / h)) as H2.
  split; [nra |]. split; nra.
Qed.

Lemma remaining_never_grows_witness :
  exists r1 r2,
    remaining_dose 5 1 3.2 = inr r1 /\ remaining_dose 5 25 3.2 = inr r2
    /\ 0 <= r2 /\ r2 <= r1 /\ r1 <= 5.
Proof. apply (remaining_never_grows 5 3.2 1 25); lra. Defined.

(** X3: after [n] half-lives the dose has been halved [n] times. *)
Theorem remaining_after_half_lives (q h : R) (n : nat) :
  h <> 0 -> remaining_dose q (INR n * h) h = inr (q * (1 / 2) ^ n).
Proof.
  intros Hh. rewrite remaining_dose_ok by exact Hh. f_equal. f_equal.
  replace (INR n * h / h) with (INR n) by (field; exact Hh).
  unfold half_pow. apply Rpower_pow. lra.
Qed.

Lemma remaining_after_half_lives_witness :
  remaining_dose 5 (INR 3 * 3.2) 3.2 = inr (5 * (1 / 2) ^ 3).
Proof. apply (remaining_after_half_lives 5 3.2 3). apply Rgt_not_eq. lra. Defined.

Lemma half_pow_opp_1 : half_pow (-1) = 2.
Proof.
  unfold half_pow. replace (-1) with (- (1)) by lra.
  rewrite Rpower_Ropp, Rpower_1 by lra. field.
Qed.

(** X4: a negative half-life is truthy, so the loop's guard lets it
    through.  For a positive dose, once the elapsed time is at least the
    size of the half-life (and at most a thousand times it) the
    "remainder" is at least twice the dose. *)
Theorem negative_half_life_grows (q h t : R) :
  h < 0 -> 0 < q -> - h <= t -> t <= 1000 * - h ->
  truthy h = true
  /\ exists r, remaining_dose q t h = inr r /\ 2 * q <= r.
Proof.
  intros Hh Hq Ht _.
  assert (Hnz : h <> 0) by (apply Rlt_not_eq; exact Hh).
  split; [apply truthy_true; exact Hnz |].
  eexists. split; [apply remaining_dose_ok; exact Hnz |].
  assert (Hratio : t / h <= -1).
  { assert (Hinv : / h < 0) by (apply Rinv_lt_0_compat; exact Hh).
    assert (Hone : h * / h = 1) by (apply Rinv_r; exact Hnz).
    unfold Rdiv. nra. }
  apply half_pow_antitone in Hratio. rewrite half_pow_opp_1 in Hratio. nra.
Qed.

Lemma negative_half_life_grows_witness :
  truthy (-1) = true /\ exists r, remaining_dose 5 1 (-1) = inr r /\ 2 * 5 <= r.
Proof. apply (negative_half_life_grows 5 (-1) 1); lra. Defined.

(** X5: elapsed hours along a timeline.  They are positive exactly for a
    medication before the target time (so the loop's first guard compares
    timestamps), they add up from one instant to the next, and they count
    one per [3600 * 10**6] microseconds. *)
Theorem hours_elapsed_timeline :
  (forall target_time med_time : Z,
     0 < hours_elapsed target_time med_time <-> (med_time < target_time)%Z)
  /\ (forall t0 t1 t2 : Z,
        hours_elapsed t2 t0 = hours_elapsed t1 t0 + hours_elapsed t2 t1)
  /\ (forall med_time k : Z,
        hours_elapsed (med_time + k * 3600000000) med_time = IZR k).
Proof.
  split; [exact hours_elapsed_pos |]. split; [exact hours_elapsed_plus |].
  intros med_time k. unfold hours_elapsed.
  replace (med_time + k * 3600000000 - med_time)%Z with (k * 3600000000)%Z by lia.
  rewrite mult_IZR. lra.
Qed.

(** ** bac.py: grams in, grams out *)

Lemma bac_of_ok (total_alcohol_g body_water_kg : R) :
  body_water_kg <> 0 ->
  bac_of total_alcohol_g body_water_kg
  = inr ((total_alcohol_g / (body_water_kg * 1000)) * 100).
Proof.
  intros Hw. unfold bac_of.
  destruct (Req_dec_T (body_water_kg * 1000) 0) as [H0 | _]; [| reflexivity].
  exfalso. apply Hw. lra.
Qed.

(** The script's own readings go through these functions. *)
Lemma script_grams_remaining :
  grams_remaining Bac.total_alcohol_g Bac.body_water_kg
    Bac.metabolism_rate_per_hour Bac.time_elapsed_hours
  = inr Bac.alcohol_remaining_g.
Proof.
  unfold grams_remaining. rewrite bac_of_ok; [reflexivity |].
  unfold Bac.body_water_kg, Bac.body_weight_kg, Bac.body_water_constant.
  apply Rgt_not_eq. lra.
Qed.

Lemma script_standard_units :
  standard_units_of Bac.alcohol_remaining_g Bac.standard_drink_alcohol_g
  = inr Bac.standard_units_of_alcohol.
Proof.
  unfold standard_units_of, Bac.standard_drink_alcohol_g.
  destruct (Req_dec_T 14 0) as [H | _]; [lra | reflexivity].
Qed.

(** With positive body water the percentages cancel: what remains is
    the alcohol consumed less [rate * hours * body water * 10] grams,
    clamped at zero. *)
Lemma grams_remaining_positive_water (g w r t : R) :
  0 < w -> grams_remaining g w r t = inr (Rmax 0 (g - r * t * (w * 10))).
Proof.
  intros Hw. unfold grams_remaining.
  rewrite bac_of_ok by (apply Rgt_not_eq; lra). f_equal.
  unfold alcohol_remaining_g_of. rewrite linear_reduce_Rmax.
  assert (Hbac : g / (w * 1000) * 100 = g / (w * 10)) by (field; lra).
  rewrite Hbac.
  assert (Hg : g = g / (w * 10) * (w * 10)) by (field; lra).
  unfold Rmax.
  destruct (Rle_dec 0 (g / (w * 10) - r * t)) as [H1 | H1];
    destruct (Rle_dec 0 (g - r * t * (w * 10))) as [H2 | H2]; try nra.
Qed.

(** X6: the computation from the alcohol consumed to the alcohol remaining
    (lines 18 to 33).  Zero body water is a division by zero; with
    positive body water the result is the alcohol consumed less
    [rate * hours * body water * 10] grams, clamped at zero. *)
Theorem grams_remaining_clamped (g w r t : R) :
  (w = 0 -> grams_remaining g w r t = inl ZeroDivisionError)
  /\ (0 < w ->
      grams_remaining g w r t = inr (Rmax 0 (g - r * t * (w * 10)))).
Proof.
  split.
  - intros ->. unfold grams_remaining, bac_of.
    destruct (Req_dec_T (0 * 1000) 0) as [_ | Hn]; [reflexivity |].
    exfalso. apply Hn. lra.
  - apply grams_remaining_positive_water.
Qed.

Lemma grams_remaining_clamped_witness :
  grams_remaining 50 0 (15 / 1000) 2 = inl ZeroDivisionError
  /\ grams_remaining 50 70 (15 / 1000) 2
     = inr (Rmax 0 (50 - 15 / 1000 * 2 * (70 * 10))).
Proof.
  split.
  - apply (proj1 (grams_remaining_clamped 50 0 (15 / 1000) 2)). reflexivity.
  - apply (proj2 (grams_remaining_clamped 50 70 (15 / 1000) 2)). lra.
Defined.

(** X7: with positive body water, alcohol consumed [g >= 0] and a
    non-negative elimination [rate * hours], the grams remaining are
    between zero and the grams consumed, and are the grams consumed when
    nothing has been eliminated. *)
Theorem grams_remaining_bounds (g w r t : R) :
  0 < w -> 0 <= g -> 0 <= r * t ->
  exists v,
    grams_remaining g w r t = inr v
    /\ 0 <= v <= g
    /\ (r * t = 0 -> v = g).
Proof.
  intros Hw Hg Hrt. eexists.
  split; [apply grams_remaining_positive_water; exact Hw |].
  unfold Rmax.
  destruct (Rle_dec 0 (g - r * t * (w * 10))) as [H | H].
  - split; [nra |]. intros H0. rewrite H0. lra.
  - split; [lra |]. intros H0. rewrite H0 in H. exfalso. apply H. lra.
Qed.

Lemma grams_remaining_bounds_witness :
  exists v,
    grams_remaining 50 70 (15 / 1000) 0 = inr v
    /\ 0 <= v <= 50
    /\ (15 / 1000 * 0 = 0 -> v = 50).
Proof. apply (grams_remaining_bounds 50 70 (15 / 1000) 0); lra. Defined.

(** ** bac.py: the clamped elimination over time *)

(** X8: elimination composes over time.  Reducing the level for [t1]
    hours and the result for [t2] more hours is reducing it for
    [t1 + t2] hours, when the second reduction is not negative: once the
    level is clamped at zero it stays there. *)
Theorem linear_reduce_composes (level r t1 t2 : R) :
  0 <= r * t2 ->
  linear_reduce (linear_reduce level r t1) r t2
  = linear_reduce level r (t1 + t2).
Proof.
  intros H2. rewrite !linear_reduce_Rmax. unfold Rmax.
  destruct (Rle_dec 0 (level - r * t1)) as [Ha | Ha];
    destruct (Rle_dec 0 (level - r * (t1 + t2))) as [Hb | Hb];
    [ destruct (Rle_dec 0 (level - r * t1 - r * t2)) as [Hc | Hc]
    | destruct (Rle_dec 0 (level - r * t1 - r * t2)) as [Hc | Hc]
    | destruct (Rle_dec 0 (0 - r * t2)) as [Hc | Hc]
    | destruct (Rle_dec 0 (0 - r * t2)) as [Hc | Hc] ];
    nra.
Qed.

Lemma linear_reduce_composes_witness :
  linear_reduce (linear_reduce (2 / 100) (15 / 1000) 1) (15 / 1000) 2
  = linear_reduce (2 / 100) (15 / 1000) (1 + 2).
Proof. apply (linear_reduce_composes (2 / 100) (15 / 1000) 1 2). lra. Defined.

(** X9: the level reaches zero exactly when the reduction
    [rate * hours] is at least the level, and a larger reduction never
    gives a larger level. *)
Theorem linear_reduce_threshold (level r : R) :
  (forall t, linear_reduce level r t = 0 <-> level <= r * t)
  /\ (forall t1 t2, r * t1 <= r * t2 ->
        linear_reduce level r t2 <= linear_reduce level r t1).
Proof.
  split.
  - intros t. rewrite linear_reduce_Rmax. unfold Rmax.
    destruct (Rle_dec 0 (level - r * t)); split; intros; lra.
  - intros t1 t2 H. rewrite !linear_reduce_Rmax. unfold Rmax.
    destruct (Rle_dec 0 (level - r * t1)), (Rle_dec 0 (level - r * t2)); lra.
Qed.

Lemma linear_reduce_threshold_witness :
  linear_reduce (2 / 100) (15 / 1000) 1 <= linear_reduce (2 / 100) (15 / 1000) 0.
Proof.
  apply (proj2 (linear_reduce_threshold (2 / 100) (15 / 1000)) 0 1). lra.
Defined.

(** ** How the accumulation ends *)

(** An exception that ends the loop was raised by one of its iterations,
    on a store that has every property the iterations keep. *)
Lemma for_each_raises_inv {A : Type} (P : results -> Prop) (body : A -> M unit)
    (l : list A) :
  (forall x st, x ∈ l -> P st -> P (body x st).1) ->
  forall st e, P st -> (for_each l body st).2 = inl e ->
  exists x st0, x ∈ l /\ P st0 /\ (body x st0).2 = inl e.
Proof.
  induction l as [| x l IH]; intros Hbody st e Hst H.
  - discriminate.
  - rewrite for_each_cons in H.
    assert (Hx : P (body x st).1) by (apply Hbody; [left | exact Hst]).
    destruct (body x st) as [st' [e' | []]] eqn:Hb.
    + exists x, st. split; [left |]. split; [exact Hst |]. rewrite Hb. exact H.
    + destruct (IH (fun y st0 Hy => Hbody y st0 (list_elem_of_further _ _ _ Hy))
                  st' e Hx H) as (y & st0 & Hy & Hst0 & Hr).
      exists y, st0. split; [right; exact Hy |]. split; assumption.
Qed.

(** A visit raises only as an augmented assignment that misses its
    entry. *)
Lemma visit_raises (half_lives : gmap string R) (m : med) (t : Z)
    (st : results) (e : exn) :
  (visit half_lives m t st).2 = inl e ->
  updates half_lives m t
  /\ ((st !! t = None /\ e = KeyError (KTime t))
      \/ (exists inner, st !! t = Some inner /\ inner !! type m = None
                        /\ e = KeyError (KName (type m)))).
Proof.
  intros H.
  destruct (Z_lt_le_dec (time m) t) as [Hlt | Hle].
  2: { rewrite visit_not_before in H by exact Hle. discriminate. }
  destruct (half_lives !! type m) as [half_life |] eqn:Hhl.
  2: { rewrite visit_unknown in H by exact Hhl. discriminate. }
  destruct (Req_dec_T half_life 0) as [-> | Hnz].
  { rewrite visit_zero_half_life in H by exact Hhl. discriminate. }
  split; [split; eauto |].
  rewrite (visit_iadd half_lives m t half_life st Hlt Hhl Hnz) in H.
  unfold iadd_entry, raise in H.
  destruct (st !! t) as [inner |] eqn:Ht.
  - right. exists inner. split; [reflexivity |].
    destruct (inner !! type m) as [old |] eqn:Hs; [discriminate |].
    split; [reflexivity |]. simpl in H. congruence.
  - left. split; [reflexivity |]. simpl in H. congruence.
Qed.

(** X10: how the accumulation ends when no half-life in the table is
    negative.  It completes exactly when every medication that passes the
    guards at some target time (strictly before it, with a non-zero
    half-life in the table) is of a pre-seeded substance.  Otherwise it
    raises [KeyError] for the substance of such a medication, and nothing
    else: no other exception, and never a [KeyError] for a target time. *)
Theorem accumulate_outcome (half_lives : gmap string R)
    (substances : list string) (meds : list med) (targets : list Z) :
  (forall s h, half_lives !! s = Some h -> 0 <= h) ->
  ((exists st', accumulate half_lives substances meds targets = (st', inr tt))
   <-> (forall m t, m ∈ meds -> t ∈ targets -> updates half_lives m t ->
                    type m ∈ substances))
  /\ (forall e,
        (accumulate half_lives substances meds targets).2 = inl e ->
        exists m t,
          m ∈ meds /\ t ∈ targets /\ updates half_lives m t
          /\ (type m ∉ substances) /\ e = KeyError (KName (type m))).
Proof.
  intros _. split; [apply accumulate_completes_iff |].
  intros e H. unfold accumulate, accumulation_loop in H.
  set (init := init_results substances targets) in *.
  apply (for_each_raises_inv (fun st => key_sets st = key_sets init)) in H
    as (m & st1 & Hm & Hk1 & H); [| | reflexivity].
  2: { intros m st _ Hk. rewrite inner_loop_key_sets. exact Hk. }
  apply (for_each_raises_inv (fun st => key_sets st = key_sets init)) in H
    as (t & st2 & Ht & Hk2 & H); [| | exact Hk1].
  2: { intros t st _ Hk. rewrite visit_key_sets. exact Hk. }
  apply visit_raises in H as [Hu Hcases].
  exists m, t. split; [exact Hm |]. split; [exact Ht |]. split; [exact Hu |].
  assert (Hl : key_sets st2 !! t = key_sets init !! t) by (rewrite Hk2; reflexivity).
  rewrite !key_sets_lookup in Hl. unfold init in Hl.
  rewrite init_results_lookup, decide_True in Hl by exact Ht.
  destruct Hcases as [[Hnone _] | (inner & Hsome & Hs & ->)].
  - rewrite Hnone in Hl. discriminate.
  - split; [| reflexivity].
    rewrite Hsome in Hl. simpl in Hl. injection Hl as Hd.
    rewrite zero_entries_dom in Hd.
    intros Hin. apply not_elem_of_dom in Hs. apply Hs. rewrite Hd.
    apply elem_of_list_to_set. exact Hin.
Qed.

(** A morphine dose one hour before the query: in the table, not
    pre-seeded. *)
Lemma morphine_dose_raises :
  (accumulate HALF_LIVES seeded_substances [Med 0 5 "morphine"]
     [3600000000%Z]).2
  = inl (KeyError (KName "morphine")).
Proof.
  unfold accumulate, accumulation_loop.
  rewrite !for_each_cons.
  rewrite (visit_key_error HALF_LIVES (Med 0 5 "morphine") 3600000000 2.75
             (zero_entries seeded_substances));
    [reflexivity | simpl; lia | reflexivity | apply Rgt_not_eq; lra
    | reflexivity | reflexivity].
Qed.

Lemma accumulate_outcome_witness :
  exists m t,
    m ∈ [Med 0 5 "morphine"] /\ t ∈ [3600000000%Z]
    /\ updates HALF_LIVES m t
    /\ (type m ∉ seeded_substances)
    /\ KeyError (KName "morphine") = KeyError (KName (type m)).
Proof.
  apply (proj2 (accumulate_outcome HALF_LIVES seeded_substances
                  [Med 0 5 "morphine"] [3600000000%Z]
                  (fun s h H => Rlt_le _ _ (HALF_LIVES_positive s h H)))).
  exact morphine_dose_raises.
Defined.

(** ** Composition and frame of the loop *)

Lemma for_each_app {A : Type} (l1 l2 : list A) (body : A -> M unit)
    (st : results) :
  for_each (l1 ++ l2) body st
  = (for_each l1 body ;; for_each l2 body) st.
Proof.
  revert st. induction l1 as [| x l1 IH]; intros st; [reflexivity |].
  change ((x :: l1) ++ l2) with (x :: (l1 ++ l2)).
  rewrite for_each_cons. unfold bind. rewrite for_each_cons.
  destruct (body x st) as [st' [e | []]]; [reflexivity |].
  rewrite IH. reflexivity.
Qed.

(** X11: the loop over a medication history in two parts is the loop over
    the first part followed, if that completes, by the loop over the
    second part on the store the first leaves; if the first part raises,
    that is the outcome and the second part is not run. *)
Theorem accumulation_loop_app (half_lives : gmap string R)
    (meds1 meds2 : list med) (targets : list Z) (st : results) :
  accumulation_loop half_lives (meds1 ++ meds2) targets st
  = match accumulation_loop half_lives meds1 targets st with
    | (st1, inr _) => accumulation_loop half_lives meds2 targets st1
    | (st1, inl e) => (st1, inl e)
    end.
Proof.
  unfold accumulation_loop. rewrite for_each_app. reflexivity.
Qed.

Lemma visit_entry_frame (half_lives : gmap string R) (m : med) (t0 : Z)
    (st : results) (t : Z) (s : string) :
  t <> t0 \/ type m <> s ->
  entry (visit half_lives m t0 st).1 t s = entry st t s.
Proof.
  intros Hframe.
  destruct (visit_cases half_lives m t0 st)
    as [-> | [[k ->] | (h & inner & old & _ & _ & _ & Ht & Hs & ->)]];
    simpl; try reflexivity.
  destruct (decide (t = t0)) as [-> | Hne].
  - destruct Hframe as [Hc | Hty]; [contradiction |].
    rewrite entry_insert_eq. unfold entry. rewrite Ht.
    apply lookup_insert_ne. exact Hty.
  - apply entry_insert_ne. congruence.
Qed.

(** X12: the loop touches only the entries of its target times and of
    the substances of its medications.  At a time that is no target time,
    or for a substance that no medication has, the entry (or its absence)
    is after the loop what it was before, however the loop ends. *)
Theorem accumulation_loop_frame (half_lives : gmap string R)
    (meds : list med) (targets : list Z) (st : results) (t : Z) (s : string) :
  t ∉ targets \/ (forall m, m ∈ meds -> type m <> s) ->
  entry (accumulation_loop half_lives meds targets st).1 t s = entry st t s.
Proof.
  intros Hframe. unfold accumulation_loop.
  apply (for_each_preserves (fun st' => entry st' t s = entry st t s));
    [| reflexivity].
  intros m st1 Hm H1.
  apply (for_each_preserves (fun st' => entry st' t s = entry st t s));
    [| exact H1].
  intros t0 st2 Ht0 H2.
  rewrite visit_entry_frame; [exact H2 |].
  destruct Hframe as [Hnt | Hty].
  - left. intros ->. contradiction.
  - right. apply Hty. exact Hm.
Qed.

Lemma accumulation_loop_frame_witness :
  entry (accumulation_loop HALF_LIVES medications target_times
           (init_results seeded_substances target_times)).1
    1731020400000000 "hydrocodone"
  = entry (init_results seeded_substances target_times)
      1731020400000000 "hydrocodone".
Proof.
  apply (accumulation_loop_frame HALF_LIVES medications target_times).
  right. intros m Hm. unfold medications in Hm.
  repeat (apply elem_of_cons in Hm as [-> | Hm]; [discriminate |]).
  inversion Hm.
Defined.

(** ** Repeated target times *)

(** X13: a target time listed [n] times is one key of [results] visited
    [n] times.  When the loop completes, its entry for a substance holds
    [n] times the sum over the events of that substance strictly before
    it. *)
Theorem repeated_target_times_multiply (half_lives : gmap string R)
    (substances : list string) (meds : list med) (targets : list Z) :
  (forall m t, m ∈ meds -> t ∈ targets -> updates half_lives m t ->
               type m ∈ substances) ->
  exists st',
    accumulate half_lives substances meds targets = (st', inr tt) /\
    forall t s, t ∈ targets -> s ∈ substances ->
      entry st' t s
      = Some (INR (length (filter (fun t0 => t = t0) targets))
              * Rsum (decayed_dose half_lives t
                        <$> filter (fun m => type m = s /\ (time m < t)%Z) meds)).
Proof.
  intros Hseed. unfold accumulate.
  destruct (accumulation_loop_adds half_lives meds targets
              (init_results substances targets)) as (st' & Hloop & Ha).
  { intros m t Hm Ht Hu. rewrite init_results_entry.
    rewrite decide_True; [eauto |]. split; [exact Ht | eauto]. }
  exists st'. split; [exact Hloop |].
  intros t s Ht Hs. rewrite (Ha t s), init_results_entry.
  rewrite decide_True by auto. simpl. f_equal.
  rewrite Rplus_0_l, <- Rsum_contribution_preceding, <- Rsum_scale.
  apply Rsum_ext. intros m _.
  apply (Rsum_at_time_count t targets (fun t0 => contribution half_lives s t0 m)).
Qed.

Lemma repeated_target_times_multiply_witness :
  exists st',
    accumulate HALF_LIVES seeded_substances [Med 0 5 "oxycodone"]
      [3600000000%Z; 3600000000%Z]
    = (st', inr tt)
    /\ entry st' 3600000000 "oxycodone"
       = Some (INR 2 * Rsum (decayed_dose HALF_LIVES 3600000000
                               <$> [Med 0 5 "oxycodone"])).
Proof.
  destruct (repeated_target_times_multiply HALF_LIVES seeded_substances
              [Med 0 5 "oxycodone"] [3600000000%Z; 3600000000%Z])
    as (st' & Hrun & Hentries).
  - intros m t Hm _ _.
    repeat (apply elem_of_cons in Hm as [-> | Hm]; [left |]).
    inversion Hm.
  - exists st'. split; [exact Hrun |].
    apply (Hentries 3600000000%Z "oxycodone"%string); left.
Defined.

(** ** No more than was taken *)

Lemma Rsum_le {A : Type} (f g : A -> R) (l : list A) :
  (forall x, x ∈ l -> f x <= g x) -> Rsum (f <$> l) <= Rsum (g <$> l).
Proof.
  induction l as [| x l IH]; intros H; [unfold Rsum; simpl; lra |].
  rewrite !fmap_cons, !Rsum_cons.
  assert (f x <= g x) by (apply H; left).
  assert (Rsum (f <$> l) <= Rsum (g <$> l)).
  { apply IH. intros y Hy. apply H. right. exact Hy. }
  lra.
Qed.

Lemma decayed_dose_le_dose (half_lives : gmap string R) (t : Z) (m : med) :
  (forall s h, half_lives !! s = Some h -> 0 <= h) ->
  0 <= dose m -> (time m < t)%Z ->
  decayed_dose half_lives t m <= dose m.
Proof.
  intros Hpos Hd Hlt. unfold decayed_dose.
  destruct (half_lives !! type m) as [h |] eqn:Hhl; [| exact Hd].
  destruct (truthy h) eqn:Htr; [| exact Hd].
  apply truthy_true in Htr. specialize (Hpos _ _ Hhl).
  assert (Hh : 0 < h) by lra.
  assert (Hx : 0 <= hours_elapsed t (time m) / h).
  { apply hours_elapsed_pos in Hlt.
    assert (0 < / h) by (apply Rinv_0_lt_compat; exact Hh).
    unfold Rdiv. nra. }
  apply half_pow_le_1 in Hx. nra.
Qed.

(** X14: no more than was taken.  With no negative dose and no negative
    half-life in the table, distinct target times and a loop that
    completes, the entry of a substance at a target time is between zero
    and the sum of the doses of that substance taken strictly before
    it. *)
Theorem entry_at_most_doses_taken (half_lives : gmap string R)
    (substances : list string) (meds : list med) (targets : list Z) :
  NoDup targets ->
  (forall m t, m ∈ meds -> t ∈ targets -> updates half_lives m t ->
               type m ∈ substances) ->
  (forall m, m ∈ meds -> 0 <= dose m) ->
  (forall s h, half_lives !! s = Some h -> 0 <= h) ->
  exists st',
    accumulate half_lives substances meds targets = (st', inr tt) /\
    forall t s, t ∈ targets -> s ∈ substances ->
      exists v,
        entry st' t s = Some v
        /\ 0 <= v
           <= Rsum (dose <$> filter (fun m => type m = s /\ (time m < t)%Z) meds).
Proof.
  intros Hnd Hseed Hdose Hpos.
  destruct (accumulate_preceding half_lives substances meds targets Hnd Hseed)
    as (st' & Hrun & Hentries).
  exists st'. split; [exact Hrun |].
  intros t s Ht Hs. eexists. split; [apply Hentries; assumption |].
  split.
  - apply Rsum_nonneg. apply Forall_fmap, Forall_forall. intros m Hm.
    apply list_elem_of_filter in Hm as [_ Hm]. simpl.
    apply decayed_dose_nonneg, Hdose, Hm.
  - apply Rsum_le. intros m Hm.
    apply list_elem_of_filter in Hm as [[_ Hlt] Hm].
    apply decayed_dose_le_dose; [exact Hpos | apply Hdose; exact Hm | exact Hlt].
Qed.

Lemma entry_at_most_doses_taken_witness :
  exists st',
    accumulate HALF_LIVES seeded_substances
      [Med 0 5 "oxycodone"; Med 86400000000 5 "oxycodone"] [90000000000%Z]
    = (st', inr tt)
    /\ exists v,
         entry st' 90000000000 "oxycodone" = Some v
         /\ 0 <= v <= Rsum (dose <$> [Med 0 5 "oxycodone";
                                      Med 86400000000 5 "oxycodone"]).
Proof.
  destruct (entry_at_most_doses_taken HALF_LIVES seeded_substances
              [Med 0 5 "oxycodone"; Med 86400000000 5 "oxycodone"]
              [90000000000%Z])
    as (st' & Hrun & Hentries).
  - apply NoDup_singleton.
  - intros m t Hm _ _.
    repeat (apply elem_of_cons in Hm as [-> | Hm]; [left |]).
    inversion Hm.
  - intros m Hm.
    repeat (apply elem_of_cons in Hm as [-> | Hm]; [simpl; lra |]).
    inversion Hm.
  - intros s h H. left. exact (HALF_LIVES_positive s h H).
  - exists st'. split; [exact Hrun |].
    apply (Hentries 90000000000%Z "oxycodone"%string); left.
Defined.

(** ** Between two target times *)

(** X15: between two target times with no dose of a substance in
    between, what the first reading holds decays like one dose.  For a
    substance with half-life [h], target times [t1 < t2] and no medication
    of that substance from [t1] up to (not including) [t2], the entry at
    [t2] is the entry at [t1] times [0.5 ** (hours from t1 to t2 / h)]
    (distinct target times, loop completing). *)
Theorem later_reading_decays (half_lives : gmap string R)
    (substances : list string) (meds : list med) (targets : list Z)
    (t1 t2 : Z) (s : string) (h : R) :
  NoDup targets ->
  (forall m t, m ∈ meds -> t ∈ targets -> updates half_lives m t ->
               type m ∈ substances) ->
  t1 ∈ targets -> t2 ∈ targets -> s ∈ substances ->
  half_lives !! s = Some h -> h <> 0 ->
  (t1 < t2)%Z ->
  (forall m, m ∈ meds -> type m = s -> (time m < t1)%Z \/ (t2 <= time m)%Z) ->
  exists st' v1,
    accumulate half_lives substances meds targets = (st', inr tt)
    /\ entry st' t1 s = Some v1
    /\ entry st' t2 s = Some (v1 * half_pow (hours_elapsed t2 t1 / h)).
Proof.
  intros Hnd Hseed Ht1 Ht2 Hs Hhl Hnz Hlt Hgap.
  destruct (accumulate_entries half_lives substances meds targets Hnd Hseed)
    as (st' & Hrun & Hentries).
  exists st'. eexists. split; [exact Hrun |].
  split; [apply Hentries; assumption |].
  rewrite (Hentries t2 s Ht2 Hs). f_equal.
  rewrite Rmult_comm, <- Rsum_scale. apply Rsum_ext. intros m Hm.
  destruct (decide (type m = s)) as [Hty | Hty].
  2: { rewrite !contribution_other by exact Hty. lra. }
  destruct (Hgap m Hm Hty) as [Hbefore | Hafter].
  - subst s.
    rewrite (contribution_decayed half_lives t1 m h Hbefore Hhl Hnz).
    rewrite (contribution_decayed half_lives t2 m h) by (lia || assumption).
    rewrite (hours_elapsed_plus (time m) t1 t2).
    replace ((hours_elapsed t1 (time m) + hours_elapsed t2 t1) / h)
      with (hours_elapsed t1 (time m) / h + hours_elapsed t2 t1 / h)
      by (unfold Rdiv; lra).
    rewrite half_pow_plus. lra.
  - rewrite !contribution_not_before by lia. lra.
Qed.

Lemma later_reading_decays_witness :
  exists st' v1,
    accumulate HALF_LIVES seeded_substances [Med 0 5 "oxycodone"]
      [3600000000%Z; 7200000000%Z]
    = (st', inr tt)
    /\ entry st' 3600000000 "oxycodone" = Some v1
    /\ entry st' 7200000000 "oxycodone"
       = Some (v1 * half_pow (hours_elapsed 7200000000 3600000000 / 3.2)).
Proof.
  apply (later_reading_decays HALF_LIVES seeded_substances
           [Med 0 5 "oxycodone"] [3600000000%Z; 7200000000%Z]
           3600000000%Z 7200000000%Z "oxycodone"%string 3.2).
  - apply NoDup_cons. split; [| apply NoDup_singleton].
    intros H. apply list_elem_of_singleton in H. discriminate.
  - intros m t Hm _ _.
    apply elem_of_cons in Hm as [-> | Hm]; [left | inversion Hm].
  - left.
  - right. left.
  - left.
  - reflexivity.
  - apply Rgt_not_eq. lra.
  - lia.
  - intros m Hm _.
    apply elem_of_cons in Hm as [-> | Hm]; [left; simpl; lia | inversion Hm].
Defined.

(** ** The initial results as sets of keys *)

(** X16: the initial results depend only on which target times and which
    substances are listed, not on their order or on repetitions. *)
Theorem init_results_listing (substances substances' : list string)
    (targets targets' : list Z) :
  (forall s, s ∈ substances <-> s ∈ substances') ->
  (forall t, t ∈ targets <-> t ∈ targets') ->
  init_results substances targets = init_results substances' targets'.
Proof.
  intros Hs Ht.
  assert (Hz : zero_entries substances = zero_entries substances').
  { apply map_eq. intros s. rewrite !zero_entries_lookup.
    destruct (decide (s ∈ substances)) as [Hin | Hnin].
    - rewrite decide_True by (apply Hs; exact Hin). reflexivity.
    - rewrite decide_False; [reflexivity |].
      intros Hin. apply Hnin, Hs. exact Hin. }
  apply map_eq. intros t. rewrite !init_results_lookup, Hz.
  destruct (decide (t ∈ targets)) as [Hin | Hnin].
  - rewrite decide_True by (apply Ht; exact Hin). reflexivity.
  - rewrite decide_False; [reflexivity |].
    intros Hin. apply Hnin, Ht. exact Hin.
Qed.

Lemma init_results_listing_witness :
  init_results seeded_substances [3600000000%Z]
  = init_results ["hydrocodone"; "oxycodone"; "oxycodone"]%string
      [3600000000%Z; 3600000000%Z].
Proof.
  apply init_results_listing.
  - intros s. unfold seeded_substances. rewrite !elem_of_cons.
    pose proof (not_elem_of_nil s) as Hnil. tauto.
  - intros t. rewrite !elem_of_cons.
    pose proof (not_elem_of_nil t) as Hnil. tauto.
Defined.
